(** * rifaniponk/amqp: message construction, client options and dial wrappers

    A shallow embedding of [message.go], [options.go] and [conn/dialers.go].
    Go values become Rocq values, a pointer argument that is written through
    becomes a value that is taken and returned, a call whose argument matters
    to a property is recorded in a call log, and a run-time panic is the
    [None] of an [option]. *)

From Stdlib Require Import ZArith String List.
From stdpp Require Import base option gmap strings list.

Open Scope string_scope.
Open Scope Z_scope.

(** ** Go base types *)

(** [uint8] and [int] values are integers; no arithmetic is performed on them
    in the embedded code, only comparisons and stores. *)
Abbreviation uint8 := Z (only parsing).
Abbreviation int := Z (only parsing).

(** [[]byte]. *)
Abbreviation bytes := (list Byte.byte) (only parsing).

(** [time.Duration]: a count of nanoseconds. *)
Abbreviation Duration := Z (only parsing).
Definition Nanosecond : Duration := 1.
Definition Second : Duration := 1000000000 * Nanosecond.

(** [time.Time] as nanoseconds since the epoch; the zero [Time] is [0]. *)
Abbreviation Time := Z (only parsing).

(** Go's [error] values that the embedded code can produce or pass on.
    [CodecNotFound] is the package variable of message.go:27. *)
Inductive error : Type :=
| CodecNotFound
| PriorityOutOfRange
| ErrorString (text : string).

#[global] Instance error_eq_dec : EqDecision error.
Proof. solve_decision. Defined.

(** ** The call log

    A tiny writer monad: a computation returns a value together with the
    calls it made to its collaborators, in order. *)
Record W (C A : Type) : Type := MkW { val : A; log : list C }.
Arguments MkW {C A} val log.
Arguments val {C A} _.
Arguments log {C A} _.

Definition W_ret {C A} (a : A) : W C A := MkW a [].
Definition W_bind {C A B} (m : W C A) (f : A → W C B) : W C B :=
  let r := f (val m) in MkW (val r) (log m ++ log r).
Definition call {C A} (c : C) (result : A) : W C A := MkW result [c].

#[global] Instance W_mret {C} : MRet (W C) := fun A => @W_ret C A.
#[global] Instance W_mbind {C} : MBind (W C) := fun A B f m => W_bind m f.

(** ** Package amqp: what it imports

    The collaborators of message.go and options.go that live outside the
    embedded files. Every definition and theorem of the package is stated
    for an arbitrary such environment. *)

(** [amqp.Publishing], restricted to the fields message.go writes; every other
    field of the library's struct stays at its zero value throughout. *)
Record Publishing : Type := MkPublishing {
  ContentType : string;
  Priority : uint8;
  Timestamp : Time;
  Body : bytes
}.

(** The zero value [amqp.Publishing{}] a named result starts from. *)
Definition zeroPublishing : Publishing :=
  {| ContentType := ""; Priority := 0; Timestamp := 0; Body := [] |}.

Definition set_Timestamp (t : Time) (msg : Publishing) : Publishing :=
  {| ContentType := ContentType msg; Priority := Priority msg;
     Timestamp := t; Body := Body msg |}.
Definition set_Priority (p : uint8) (msg : Publishing) : Publishing :=
  {| ContentType := ContentType msg; Priority := p;
     Timestamp := Timestamp msg; Body := Body msg |}.
Definition set_ContentType (ct : string) (msg : Publishing) : Publishing :=
  {| ContentType := ct; Priority := Priority msg;
     Timestamp := Timestamp msg; Body := Body msg |}.
Definition set_Body (b : bytes) (msg : Publishing) : Publishing :=
  {| ContentType := ContentType msg; Priority := Priority msg;
     Timestamp := Timestamp msg; Body := b |}.

(** [codecs.Codec]: [Encode(v) ([]byte, error)]. Go returns both components
    whatever the error is, so both are kept. *)
Record Codec (Value : Type) : Type := MkCodec {
  Encode : Value → bytes * option error
}.
Arguments MkCodec {Value} Encode.
Arguments Encode {Value} _ _.

Class Env : Type := MkEnv {
  (** [interface{}]: the dynamic values handed to the client. *)
  Value : Type;
  (** The type assertion [v.(ContentTyper)] followed by [ct.ContentType()]:
      [Some s] when the dynamic type of [v] has the method, [s] being what
      it returns; [None] when the assertion fails. *)
  asContentTyper : Value → option string;
  (** [time.Now()] at the one place message.go reads the clock. *)
  now : Time;
  (** [http.DetectContentType]. *)
  DetectContentType : bytes → string;
  (** [codecs.Register]; [Get] is the lookup of the map. *)
  Register : gmap string (Codec Value);
  (** [logger.Logger] and [logger.NoopLogger]. *)
  Logger : Type;
  NoopLogger : Logger;
  (** [context.Context] and [context.Background()]. *)
  GoContext : Type;
  Background : GoContext;
  (** [amqp.Delivery] and [conn.ConnectionOption]. *)
  Delivery : Type;
  conn_ConnectionOption : Type;
  (** What the broker channel answers when a finished message is handed to
      it: [nil] or the transport's error. *)
  channelPublish : Publishing → option error
}.

(** ** message.go *)

Section Message.
Context `{Env}.

(** The calls of the encode path whose arguments and order the properties
    speak about. *)
Inductive Call : Type :=
| CallGet (contentType : string)
| CallEncode (v : Value)
| CallPublish (msg : Publishing).

(** [codecs.Register.Get(contentType)]. *)
Definition Register_Get (contentType : string) : W Call (option (Codec Value)) :=
  call (CallGet contentType) (Register !! contentType).

(** [codec.Encode(v)]. *)
Definition codec_Encode (codec : Codec Value) (v : Value) : W Call (bytes * option error) :=
  call (CallEncode v) (Encode codec v).

(** message.go:30-51. The named results [msg] and [err] are the pair that is
    returned; [contentType] is the local declared at line 34. *)
Definition constructPublishing (v : Value) (priority : uint8) (defaultContentType : string)
  : W Call (Publishing * option error) :=
  let msg := zeroPublishing in
  let msg := set_Timestamp now msg in
  let msg := set_Priority priority msg in
  let contentType := "" in
  let '(msg, contentType) :=
    match asContentTyper v with
    | Some ct =>
        let msg := set_ContentType ct msg in
        (msg, ContentType msg)
    | None =>
        if decide (defaultContentType ≠ "") then
          (set_ContentType defaultContentType msg, defaultContentType)
        else
          (set_ContentType (DetectContentType (Body msg)) msg, contentType)
    end in
  codec ← Register_Get contentType;
  match codec with
  | None => mret (msg, Some CodecNotFound)
  | Some codec =>
      '(body, err) ← codec_Encode codec v;
      mret (set_Body body msg, err)
  end.

(** The content types a run asked the registry for, in order. *)
Definition lookup_keys (calls : list Call) : list string :=
  omap (fun c => match c with CallGet k => Some k | _ => None end) calls.

(** What [constructPublishing] stamps before it consults the registry
    (message.go:31-43): time, priority and a content type, and no body. *)
Definition stamped (priority : uint8) (contentType : string) : Publishing :=
  {| ContentType := contentType; Priority := priority; Timestamp := now; Body := [] |}.

End Message.

(** ** options.go *)

Section Options.
Context `{Env}.

(** options.go:92-96. A [func] value is the function it computes; a hook
    that writes through its pointer argument returns the written value. *)
Definition MessageIdBuilder : Type := unit → string.
Definition Typer : Type := Value → string.
Definition PublishingBefore : Type := GoContext → Publishing → Publishing.
Definition DeliveryBefore : Type := GoContext → Delivery → GoContext * Delivery.
Definition ErrorBefore : Type := Delivery → error → option error.

(** Modelled from the spec: the struct [messageOptions], whose declaration is
    not in the embedded files. Its fields are the message options the spec
    lists (id builder, typer, min/max priority, application/user id, hook
    chains, default content type), under the names options.go selects them
    by. *)
Record messageOptions : Type := MkMessageOptions {
  idBuilder : MessageIdBuilder;
  typer : Typer;
  minPriority : uint8;
  maxPriority : uint8;
  applicationId : string;
  userId : string;
  pubBefore : list PublishingBefore;
  deliveryBefore : list DeliveryBefore;
  defaultContentType : string
}.

(** options.go:67-90. The anonymous structs [wait], [timeout] and [log] are
    flattened: [opts.wait.flag] is [wait_flag opts], and so on. *)
Record options : Type := MkOptions {
  wait_flag : bool;
  wait_timeout : Duration;
  timeout_base : Duration;
  timeout_cap : int;
  subEventChanBuffer : int;
  log_debug : Logger;
  log_info : Logger;
  log_warn : Logger;
  log_error : Logger;
  context : GoContext;
  msgOpts : messageOptions;
  processAllDeliveries : bool;
  handlersAmount : int;
  errorBefore : list ErrorBefore;
  lazyCommands : bool;
  connOpts : list conn_ConnectionOption
}.

(** Field assignments [r.f = x]. *)
Definition setm_idBuilder (x : MessageIdBuilder) (r : messageOptions) : messageOptions :=
  {|
     idBuilder := x;
     typer := typer r;
     minPriority := minPriority r;
     maxPriority := maxPriority r;
     applicationId := applicationId r;
     userId := userId r;
     pubBefore := pubBefore r;
     deliveryBefore := deliveryBefore r;
     defaultContentType := defaultContentType r |}.
Definition setm_minPriority (x : uint8) (r : messageOptions) : messageOptions :=
  {|
     idBuilder := idBuilder r;
     typer := typer r;
     minPriority := x;
     maxPriority := maxPriority r;
     applicationId := applicationId r;
     userId := userId r;
     pubBefore := pubBefore r;
     deliveryBefore := deliveryBefore r;
     defaultContentType := defaultContentType r |}.
Definition setm_maxPriority (x : uint8) (r : messageOptions) : messageOptions :=
  {|
     idBuilder := idBuilder r;
     typer := typer r;
     minPriority := minPriority r;
     maxPriority := x;
     applicationId := applicationId r;
     userId := userId r;
     pubBefore := pubBefore r;
     deliveryBefore := deliveryBefore r;
     defaultContentType := defaultContentType r |}.
Definition setm_applicationId (x : string) (r : messageOptions) : messageOptions :=
  {|
     idBuilder := idBuilder r;
     typer := typer r;
     minPriority := minPriority r;
     maxPriority := maxPriority r;
     applicationId := x;
     userId := userId r;
     pubBefore := pubBefore r;
     deliveryBefore := deliveryBefore r;
     defaultContentType := defaultContentType r |}.
Definition setm_userId (x : string) (r : messageOptions) : messageOptions :=
  {|
     idBuilder := idBuilder r;
     typer := typer r;
     minPriority := minPriority r;
     maxPriority := maxPriority r;
     applicationId := applicationId r;
     userId := x;
     pubBefore := pubBefore r;
     deliveryBefore := deliveryBefore r;
     defaultContentType := defaultContentType r |}.
Definition setm_pubBefore (x : list PublishingBefore) (r : messageOptions) : messageOptions :=
  {|
     idBuilder := idBuilder r;
     typer := typer r;
     minPriority := minPriority r;
     maxPriority := maxPriority r;
     applicationId := applicationId r;
     userId := userId r;
     pubBefore := x;
     deliveryBefore := deliveryBefore r;
     defaultContentType := defaultContentType r |}.
Definition setm_deliveryBefore (x : list DeliveryBefore) (r : messageOptions) : messageOptions :=
  {|
     idBuilder := idBuilder r;
     typer := typer r;
     minPriority := minPriority r;
     maxPriority := maxPriority r;
     applicationId := applicationId r;
     userId := userId r;
     pubBefore := pubBefore r;
     deliveryBefore := x;
     defaultContentType := defaultContentType r |}.
Definition setm_defaultContentType (x : string) (r : messageOptions) : messageOptions :=
  {|
     idBuilder := idBuilder r;
     typer := typer r;
     minPriority := minPriority r;
     maxPriority := maxPriority r;
     applicationId := applicationId r;
     userId := userId r;
     pubBefore := pubBefore r;
     deliveryBefore := deliveryBefore r;
     defaultContentType := x |}.
Definition set_wait_flag (x : bool) (r : options) : options :=
  {|
     wait_flag := x;
     wait_timeout := wait_timeout r;
     timeout_base := timeout_base r;
     timeout_cap := timeout_cap r;
     subEventChanBuffer := subEventChanBuffer r;
     log_debug := log_debug r;
     log_info := log_info r;
     log_warn := log_warn r;
     log_error := log_error r;
     context := context r;
     msgOpts := msgOpts r;
     processAllDeliveries := processAllDeliveries r;
     handlersAmount := handlersAmount r;
     errorBefore := errorBefore r;
     lazyCommands := lazyCommands r;
     connOpts := connOpts r |}.
Definition set_wait_timeout (x : Duration) (r : options) : options :=
  {|
     wait_flag := wait_flag r;
     wait_timeout := x;
     timeout_base := timeout_base r;
     timeout_cap := timeout_cap r;
     subEventChanBuffer := subEventChanBuffer r;
     log_debug := log_debug r;
     log_info := log_info r;
     log_warn := log_warn r;
     log_error := log_error r;
     context := context r;
     msgOpts := msgOpts r;
     processAllDeliveries := processAllDeliveries r;
     handlersAmount := handlersAmount r;
     errorBefore := errorBefore r;
     lazyCommands := lazyCommands r;
     connOpts := connOpts r |}.
Definition set_subEventChanBuffer (x : int) (r : options) : options :=
  {|
     wait_flag := wait_flag r;
     wait_timeout := wait_timeout r;
     timeout_base := timeout_base r;
     timeout_cap := timeout_cap r;
     subEventChanBuffer := x;
     log_debug := log_debug r;
     log_info := log_info r;
     log_warn := log_warn r;
     log_error := log_error r;
     context := context r;
     msgOpts := msgOpts r;
     processAllDeliveries := processAllDeliveries r;
     handlersAmount := handlersAmount r;
     errorBefore := errorBefore r;
     lazyCommands := lazyCommands r;
     connOpts := connOpts r |}.
Definition set_log_debug (x : Logger) (r : options) : options :=
  {|
     wait_flag := wait_flag r;
     wait_timeout := wait_timeout r;
     timeout_base := timeout_base r;
     timeout_cap := timeout_cap r;
     subEventChanBuffer := subEventChanBuffer r;
     log_debug := x;
     log_info := log_info r;
     log_warn := log_warn r;
     log_error := log_error r;
     context := context r;
     msgOpts := msgOpts r;
     processAllDeliveries := processAllDeliveries r;
     handlersAmount := handlersAmount r;
     errorBefore := errorBefore r;
     lazyCommands := lazyCommands r;
     connOpts := connOpts r |}.
Definition set_log_info (x : Logger) (r : options) : options :=
  {|
     wait_flag := wait_flag r;
     wait_timeout := wait_timeout r;
     timeout_base := timeout_base r;
     timeout_cap := timeout_cap r;
     subEventChanBuffer := subEventChanBuffer r;
     log_debug := log_debug r;
     log_info := x;
     log_warn := log_warn r;
     log_error := log_error r;
     context := context r;
     msgOpts := msgOpts r;
     processAllDeliveries := processAllDeliveries r;
     handlersAmount := handlersAmount r;
     errorBefore := errorBefore r;
     lazyCommands := lazyCommands r;
     connOpts := connOpts r |}.
Definition set_log_warn (x : Logger) (r : options) : options :=
  {|
     wait_flag := wait_flag r;
     wait_timeout := wait_timeout r;
     timeout_base := timeout_base r;
     timeout_cap := timeout_cap r;
     subEventChanBuffer := subEventChanBuffer r;
     log_debug := log_debug r;
     log_info := log_info r;
     log_warn := x;
     log_error := log_error r;
     context := context r;
     msgOpts := msgOpts r;
     processAllDeliveries := processAllDeliveries r;
     handlersAmount := handlersAmount r;
     errorBefore := errorBefore r;
     lazyCommands := lazyCommands r;
     connOpts := connOpts r |}.
Definition set_log_error (x : Logger) (r : options) : options :=
  {|
     wait_flag := wait_flag r;
     wait_timeout := wait_timeout r;
     timeout_base := timeout_base r;
     timeout_cap := timeout_cap r;
     subEventChanBuffer := subEventChanBuffer r;
     log_debug := log_debug r;
     log_info := log_info r;
     log_warn := log_warn r;
     log_error := x;
     context := context r;
     msgOpts := msgOpts r;
     processAllDeliveries := processAllDeliveries r;
     handlersAmount := handlersAmount r;
     errorBefore := errorBefore r;
     lazyCommands := lazyCommands r;
     connOpts := connOpts r |}.
Definition set_context (x : GoContext) (r : options) : options :=
  {|
     wait_flag := wait_flag r;
     wait_timeout := wait_timeout r;
     timeout_base := timeout_base r;
     timeout_cap := timeout_cap r;
     subEventChanBuffer := subEventChanBuffer r;
     log_debug := log_debug r;
     log_info := log_info r;
     log_warn := log_warn r;
     log_error := log_error r;
     context := x;
     msgOpts := msgOpts r;
     processAllDeliveries := processAllDeliveries r;
     handlersAmount := handlersAmount r;
     errorBefore := errorBefore r;
     lazyCommands := lazyCommands r;
     connOpts := connOpts r |}.
Definition set_msgOpts (x : messageOptions) (r : options) : options :=
  {|
     wait_flag := wait_flag r;
     wait_timeout := wait_timeout r;
     timeout_base := timeout_base r;
     timeout_cap := timeout_cap r;
     subEventChanBuffer := subEventChanBuffer r;
     log_debug := log_debug r;
     log_info := log_info r;
     log_warn := log_warn r;
     log_error := log_error r;
     context := context r;
     msgOpts := x;
     processAllDeliveries := processAllDeliveries r;
     handlersAmount := handlersAmount r;
     errorBefore := errorBefore r;
     lazyCommands := lazyCommands r;
     connOpts := connOpts r |}.
Definition set_processAllDeliveries (x : bool) (r : options) : options :=
  {|
     wait_flag := wait_flag r;
     wait_timeout := wait_timeout r;
     timeout_base := timeout_base r;
     timeout_cap := timeout_cap r;
     subEventChanBuffer := subEventChanBuffer r;
     log_debug := log_debug r;
     log_info := log_info r;
     log_warn := log_warn r;
     log_error := log_error r;
     context := context r;
     msgOpts := msgOpts r;
     processAllDeliveries := x;
     handlersAmount := handlersAmount r;
     errorBefore := errorBefore r;
     lazyCommands := lazyCommands r;
     connOpts := connOpts r |}.
Definition set_handlersAmount (x : int) (r : options) : options :=
  {|
     wait_flag := wait_flag r;
     wait_timeout := wait_timeout r;
     timeout_base := timeout_base r;
     timeout_cap := timeout_cap r;
     subEventChanBuffer := subEventChanBuffer r;
     log_debug := log_debug r;
     log_info := log_info r;
     log_warn := log_warn r;
     log_error := log_error r;
     context := context r;
     msgOpts := msgOpts r;
     processAllDeliveries := processAllDeliveries r;
     handlersAmount := x;
     errorBefore := errorBefore r;
     lazyCommands := lazyCommands r;
     connOpts := connOpts r |}.
Definition set_lazyCommands (x : bool) (r : options) : options :=
  {|
     wait_flag := wait_flag r;
     wait_timeout := wait_timeout r;
     timeout_base := timeout_base r;
     timeout_cap := timeout_cap r;
     subEventChanBuffer := subEventChanBuffer r;
     log_debug := log_debug r;
     log_info := log_info r;
     log_warn := log_warn r;
     log_error := log_error r;
     context := context r;
     msgOpts := msgOpts r;
     processAllDeliveries := processAllDeliveries r;
     handlersAmount := handlersAmount r;
     errorBefore := errorBefore r;
     lazyCommands := x;
     connOpts := connOpts r |}.

(** An assignment to a field of [opts.msgOpts]. *)
Definition in_msgOpts (f : messageOptions → messageOptions) (opts : options) : options :=
  set_msgOpts (f (msgOpts opts)) opts.

(** options.go:99-108. *)
Definition MaxMessagePriority : uint8 := 9.
Definition MinMessagePriority : uint8 := 0.
Definition defaultWaitDeadline : Duration := Second * 5.
Definition defaultEventBuffer : int := 1.
Definition defaultHandlerAmount : int := 1.

(** options.go:271-277. *)
Definition noopMessageIdBuilder : MessageIdBuilder := fun _ => "".
Definition noopTyper : Typer := fun _ => "".

(** options.go:110-126: [opts := options{}] followed by the assignments of
    lines 112-124. A field with no assignment keeps the zero value of its
    Go type: [false], [0], the empty string, the nil slice. *)
Definition defaultOptions : options :=
  {| wait_flag := false;
     wait_timeout := defaultWaitDeadline;
     timeout_base := 0;
     timeout_cap := 0;
     subEventChanBuffer := defaultEventBuffer;
     log_debug := NoopLogger;
     log_info := NoopLogger;
     log_warn := NoopLogger;
     log_error := NoopLogger;
     context := Background;
     msgOpts :=
       {| idBuilder := noopMessageIdBuilder;
          typer := noopTyper;
          minPriority := MinMessagePriority;
          maxPriority := MaxMessagePriority;
          applicationId := "";
          userId := "";
          pubBefore := [];
          deliveryBefore := [];
          defaultContentType := "application/json" |};
     processAllDeliveries := false;
     handlersAmount := defaultHandlerAmount;
     errorBefore := [];
     lazyCommands := false;
     connOpts := [] |}.

(** options.go:128. An [Option] writes through the [*options] it is given. *)
Definition Option : Type := options → options.

(** options.go:131-138. *)
Definition WaitConnection (should : bool) (timeout : Duration) : Option :=
  fun opts =>
    let opts := set_wait_flag should opts in
    if decide (timeout ≠ 0) then set_wait_timeout timeout opts else opts.

(** options.go:141-145. *)
Definition EventChanBuffer (a : int) : Option :=
  fun opts => set_subEventChanBuffer a opts.

(** options.go:149-153, Go's [Context]; the underscore keeps the name apart
    from Rocq's command of that name. *)
Definition Context_ (ctx : GoContext) : Option :=
  fun opts => set_context ctx opts.

(** options.go:156-160. *)
Definition SetMessageIdBuilder (builder : MessageIdBuilder) : Option :=
  fun opts => in_msgOpts (setm_idBuilder builder) opts.

(** options.go:163-168. *)
Definition AllowedPriority (from to : uint8) : Option :=
  fun opts =>
    let opts := in_msgOpts (setm_minPriority from) opts in
    in_msgOpts (setm_maxPriority to) opts.

(** options.go:171-175. *)
Definition ApplicationId (id : string) : Option :=
  fun opts => in_msgOpts (setm_applicationId id) opts.

(** options.go:178-182. *)
Definition UserId (id : string) : Option :=
  fun opts => in_msgOpts (setm_userId id) opts.

(** options.go:185-189. *)
Definition InfoLogger (lg : Logger) : Option :=
  fun opts => set_log_info lg opts.

(** options.go:192-196. *)
Definition DebugLogger (lg : Logger) : Option :=
  fun opts => set_log_debug lg opts.

(** options.go:199-203. *)
Definition ErrorLogger (lg : Logger) : Option :=
  fun opts => set_log_error lg opts.

(** options.go:206-210. *)
Definition WarnLogger (lg : Logger) : Option :=
  fun opts => set_log_warn lg opts.

(** options.go:213-220. *)
Definition AllLoggers (lg : Logger) : Option :=
  fun opts =>
    let opts := set_log_info lg opts in
    let opts := set_log_debug lg opts in
    let opts := set_log_error lg opts in
    set_log_warn lg opts.

(** options.go:222-228: the loop appends [before[i]] for each [i] in turn. *)
Definition PublishBefore (before : list PublishingBefore) : Option :=
  fun opts =>
    fold_left
      (fun opts b => in_msgOpts (fun m => setm_pubBefore (pubBefore m ++ [b]) m) opts)
      before opts.

(** options.go:230-236. *)
Definition DeliverBefore (before : list DeliveryBefore) : Option :=
  fun opts =>
    fold_left
      (fun opts b => in_msgOpts (fun m => setm_deliveryBefore (deliveryBefore m ++ [b]) m) opts)
      before opts.

(** options.go:239-243. *)
Definition ProcessAllDeliveries (v : bool) : Option :=
  fun opts => set_processAllDeliveries v opts.

(** options.go:247-253. *)
Definition HandlersAmount (n : int) : Option :=
  fun opts => if decide (n > 0) then set_handlersAmount n opts else opts.

(** options.go:258-262. *)
Definition LazyDeclaring (v : bool) : Option :=
  fun opts => set_lazyCommands v opts.

(** options.go:265-269. *)
Definition SetDefaultContentType (t : string) : Option :=
  fun opts => in_msgOpts (setm_defaultContentType t) opts.

(** Modelled from the spec: how a client arrives at its options, "an ordered
    list of option-functions applied to defaults". The constructor that runs
    this loop is not in the embedded files. *)
Definition applyOptions (fs : list Option) (opts : options) : options :=
  fold_left (fun opts f => f opts) fs opts.

(** The option functions options.go exports, that is, the closures a caller
    can put in such a list. [okPriority] restricts the arguments given to
    [AllowedPriority]; every other argument is free. *)
Inductive IsOptionWhere (okPriority : uint8 → uint8 → Prop) : Option → Prop :=
| is_WaitConnection should timeout :
    IsOptionWhere okPriority (WaitConnection should timeout)
| is_EventChanBuffer a : IsOptionWhere okPriority (EventChanBuffer a)
| is_Context ctx : IsOptionWhere okPriority (Context_ ctx)
| is_SetMessageIdBuilder builder :
    IsOptionWhere okPriority (SetMessageIdBuilder builder)
| is_AllowedPriority from to :
    okPriority from to → IsOptionWhere okPriority (AllowedPriority from to)
| is_ApplicationId id : IsOptionWhere okPriority (ApplicationId id)
| is_UserId id : IsOptionWhere okPriority (UserId id)
| is_InfoLogger lg : IsOptionWhere okPriority (InfoLogger lg)
| is_DebugLogger lg : IsOptionWhere okPriority (DebugLogger lg)
| is_ErrorLogger lg : IsOptionWhere okPriority (ErrorLogger lg)
| is_WarnLogger lg : IsOptionWhere okPriority (WarnLogger lg)
| is_AllLoggers lg : IsOptionWhere okPriority (AllLoggers lg)
| is_PublishBefore before : IsOptionWhere okPriority (PublishBefore before)
| is_DeliverBefore before : IsOptionWhere okPriority (DeliverBefore before)
| is_ProcessAllDeliveries v : IsOptionWhere okPriority (ProcessAllDeliveries v)
| is_HandlersAmount n : IsOptionWhere okPriority (HandlersAmount n)
| is_LazyDeclaring v : IsOptionWhere okPriority (LazyDeclaring v)
| is_SetDefaultContentType t : IsOptionWhere okPriority (SetDefaultContentType t).

(** Any option function, whatever its arguments. *)
Definition IsOption : Option → Prop := IsOptionWhere (fun _ _ => True).

(** Modelled from the spec: the publish path of the client (client.go is not
    in the embedded files), section 4.2. A priority outside
    [[minPriority, maxPriority]] is rejected before encoding is attempted;
    otherwise the message is constructed (steps 1 to 4, the source's
    [constructPublishing]), a failure of construction is passed on, the
    publish-before hooks are applied in order (step 5), and the message is
    handed to the transport. *)
Definition publish (opts : options) (ctx : GoContext) (v : Value) (priority : uint8)
  : W Call (option error) :=
  let m := msgOpts opts in
  if decide (minPriority m ≤ priority ≤ maxPriority m) then
    '(msg, err) ← constructPublishing v priority (defaultContentType m);
    match err with
    | Some e => mret (Some e)
    | None =>
        let msg := fold_left (fun msg before => before ctx msg) (pubBefore m) msg in
        call (CallPublish msg) (channelPublish msg)
    end
  else mret (Some PriorityOutOfRange).

End Options.

(** ** Package conn: dialers.go *)

Module Conn.

(** The values an [amqp.Table] holds that matter to a handshake. *)
Inductive Field : Type :=
| FString (s : string)
| FInt (n : Z)
| FBool (b : bool)
| FBytes (b : bytes)
| FNil.

(** [amqp.Table] is [map[string]interface{}]. A Go map variable is either nil
    or refers to a map; reading a nil map finds nothing, writing to it
    panics. *)
Inductive Table : Type :=
| NilTable
| MkTable (m : gmap string Field).

(** [len(prop)]. *)
Definition Table_len (prop : Table) : nat :=
  match prop with
  | NilTable => 0%nat
  | MkTable m => size m
  end.

(** [v, ok := prop[k]]: [Some v] when [ok]. *)
Definition Table_get (k : string) (prop : Table) : option Field :=
  match prop with
  | NilTable => None
  | MkTable m => m !! k
  end.

(** [prop[k] = v]; [None] is the panic of an assignment into a nil map. *)
Definition Table_set (k : string) (v : Field) (prop : Table) : option Table :=
  match prop with
  | NilTable => None
  | MkTable m => Some (MkTable (<[k := v]> m))
  end.

(** [amqp.Config], restricted to the scalar fields and the properties. *)
Record Config : Type := MkConfig {
  Vhost : string;
  ChannelMax : int;
  FrameSize : int;
  Heartbeat : Duration;
  Properties : Table;
  Locale : string
}.

Definition set_Properties (prop : Table) (config : Config) : Config :=
  {| Vhost := Vhost config; ChannelMax := ChannelMax config;
     FrameSize := FrameSize config; Heartbeat := Heartbeat config;
     Properties := prop; Locale := Locale config |}.

(** What the package takes from the amqp library and from connection.go,
    which is not in the embedded files. *)
Class ConnEnv : Type := MkConnEnv {
  (** [*amqp.Connection], [*tls.Config], [io.ReadWriteCloser]. *)
  AmqpConnection : Type;
  TLSConfig : Type;
  ReadWriteCloser : Type;
  (** [amqp.Dial], [amqp.DialTLS], [amqp.DialConfig], [amqp.Open]: each
      answers with a connection and an error. *)
  amqp_Dial : string → option AmqpConnection * option error;
  amqp_DialTLS : string → TLSConfig → option AmqpConnection * option error;
  amqp_DialConfig : string → Config → option AmqpConnection * option error;
  amqp_Open : ReadWriteCloser → Config → option AmqpConnection * option error;
  (** [ConnectionOption], [Connection], [newConnection], the method
      [connect] (which writes through its receiver and returns nothing) and
      the field [config] of a connection. *)
  ConnectionOption : Type;
  Connection : Type;
  newConnection : list ConnectionOption → Connection;
  connect : (unit → option AmqpConnection * option error) → Connection → Connection;
  Connection_config : Connection → Config
}.

Section Dialers.
Context `{ConnEnv}.

(** dialers.go:13-15. A [Dialer] is run by calling it. *)
Definition Dialer : Type := unit → option AmqpConnection * option error.
Definition Connector : Type := unit → Connection * option error.

(** dialers.go:19-24. *)
Definition Connect (url : string) (opts : list ConnectionOption) : Connection :=
  let c := newConnection opts in
  let dialer : Dialer := fun _ => amqp_DialConfig url (Connection_config c) in
  let c := connect dialer c in
  c.

(** dialers.go:28-32. *)
Definition DialWithDialer (dialer : Dialer) (opts : list ConnectionOption)
  : Connection * option error :=
  let c := newConnection opts in
  let c := connect dialer c in
  (c, None).

(** dialers.go:36-38. *)
Definition Dial (url : string) (opts : list ConnectionOption) : Connection * option error :=
  DialWithDialer (fun _ => amqp_Dial url) opts.

(** dialers.go:42-44. *)
Definition DialTLS (url : string) (amqps : TLSConfig) (opts : list ConnectionOption)
  : Connection * option error :=
  DialWithDialer (fun _ => amqp_DialTLS url amqps) opts.

(** dialers.go:53-60. *)
Definition defaultProduct : string := "https://github.com/rifaniponk/amqp".
Definition defaultVersion : string := "v1.2.0".
Definition defaultPlatform : string := "golang".
Definition defaultInformation : string :=
  "AMQP lib github.com/rifaniponk/amqp for golang on top of https://github.com/streadway/amqp".
Definition defaultLocale : string := "en_US".
Definition defaultHeartbeat : Duration := 10 * Second.

(** dialers.go:62-79. Each [if _, ok := prop[k]; !ok] is a [match] on the
    lookup; each assignment may panic, so the function is in the [option]
    monad. *)
Definition setupDefaultConfigProperties (prop : Table) : option Table :=
  let prop := if decide (Table_len prop = 0%nat) then MkTable ∅ else prop in
  prop ← match Table_get "product" prop with
         | None => Table_set "product" (FString defaultProduct) prop
         | Some _ => Some prop
         end;
  prop ← match Table_get "version" prop with
         | None => Table_set "version" (FString defaultVersion) prop
         | Some _ => Some prop
         end;
  prop ← match Table_get "platform" prop with
         | None => Table_set "platform" (FString defaultPlatform) prop
         | Some _ => Some prop
         end;
  prop ← match Table_get "information" prop with
         | None => Table_set "information" (FString defaultInformation) prop
         | Some _ => Some prop
         end;
  Some prop.

(** The configuration [DialConfig] closes its dialer over (dialers.go:49). *)
Definition DialConfig_config (config : Config) : option Config :=
  prop ← setupDefaultConfigProperties (Properties config);
  Some (set_Properties prop config).

(** dialers.go:48-51. *)
Definition DialConfig (url : string) (config : Config) (opts : list ConnectionOption)
  : option (Connection * option error) :=
  config ← DialConfig_config config;
  Some (DialWithDialer (fun _ => amqp_DialConfig url config) opts).

(** dialers.go:83-85. *)
Definition Open (conn : ReadWriteCloser) (config : Config) (opts : list ConnectionOption)
  : Connection * option error :=
  DialWithDialer (fun _ => amqp_Open conn config) opts.

(** dialers.go:87-103. *)
Definition DefaultConnector (url : string) (opts : list ConnectionOption) : Connector :=
  fun _ => Dial url opts.

Definition ConfigConnector (url : string) (config : Config) (opts : list ConnectionOption)
  : unit → option (Connection * option error) :=
  fun _ => DialConfig url config opts.

Definition NewConnector (url : string) (opts : list ConnectionOption) : Connector :=
  fun _ => (Connect url opts, None).

(** What a table holds; the nil map holds nothing. *)
Definition Table_entries (prop : Table) : gmap string Field :=
  match prop with
  | NilTable => ∅
  | MkTable m => m
  end.

(** The four defaults of lines 66-77, as a table of their own. *)
Definition defaultProperties : gmap string Field :=
  {[ "product" := FString defaultProduct;
     "version" := FString defaultVersion;
     "platform" := FString defaultPlatform;
     "information" := FString defaultInformation ]}.

End Dialers.

End Conn.

(** ** Concrete environments

    Small inhabitants of [Env] and [Conn.ConnEnv] on which the definitions
    above compute; the examples further down are run on them. *)

(** A caller's value: plain text, or text of a type that declares its own
    content type through a [ContentType] method. *)
Inductive demoValue : Type :=
| Plain (text : string)
| Typed (declared : string) (text : string).

Definition demoText (v : demoValue) : string :=
  match v with
  | Plain text => text
  | Typed _ text => text
  end.

(** A codec that writes the text out as its bytes and never fails. *)
Definition demoCodec : Codec demoValue :=
  MkCodec (fun v => (list_byte_of_string (demoText v), None)).

(** One codec, registered for JSON; a sniffer that answers what
    [http.DetectContentType] answers on an empty body. *)
Definition demoEnv : Env :=
  {| Value := demoValue;
     asContentTyper := fun v =>
       match v with
       | Plain _ => None
       | Typed declared _ => Some declared
       end;
     now := 1700000000 * Second;
     DetectContentType := fun _ => "text/plain; charset=utf-8";
     Register := {[ "application/json" := demoCodec ]};
     Logger := unit;
     NoopLogger := tt;
     GoContext := unit;
     Background := tt;
     Delivery := unit;
     conn_ConnectionOption := unit;
     channelPublish := fun _ => None |}.

(** Values handed to the demo client: JSON and XML text of a type without
    the method, a CSV row that declares text/csv, and a value whose method
    returns the empty string. *)
Definition jsonText : @Value demoEnv := Plain "{}".
Definition xmlText : @Value demoEnv := Plain "<a/>".
Definition csvRow : @Value demoEnv := Typed "text/csv" "a,b".
Definition untypedDeclaration : @Value demoEnv := Typed "" "{}".

(** A broker that cannot be reached: every dial of the library fails. *)
Definition refused : option unit * option error :=
  (None, Some (ErrorString "dial tcp: connection refused")).

Definition demoConnEnv : Conn.ConnEnv :=
  {| Conn.AmqpConnection := unit;
     Conn.TLSConfig := unit;
     Conn.ReadWriteCloser := unit;
     Conn.amqp_Dial := fun _ => refused;
     Conn.amqp_DialTLS := fun _ _ => refused;
     Conn.amqp_DialConfig := fun _ _ => refused;
     Conn.amqp_Open := fun _ _ => refused;
     Conn.ConnectionOption := unit;
     Conn.Connection := list unit;
     Conn.newConnection := fun opts => opts;
     Conn.connect := fun _ c => c;
     Conn.Connection_config := fun _ =>
       Conn.MkConfig "/" 0 0 0 Conn.NilTable "" |}.

(** A configuration whose caller brought a product name and a locale. *)
Definition demoConfig : Conn.Config :=
  Conn.MkConfig "/" 0 0 0
    (Conn.MkTable {[ "product" := Conn.FString "billing";
                     "locale" := Conn.FString "de_DE" ]})
    "".

(** The zero [amqp.Config{}]: its properties are the nil map. *)
Definition zeroConfig : Conn.Config :=
  Conn.MkConfig "" 0 0 0 Conn.NilTable "".

(** The demo environment with its one codec registered under the type the
    sniffer answers, and under nothing else. *)
Definition sniffEnv : Env :=
  {| Value := demoValue;
     asContentTyper := fun v =>
       match v with
       | Plain _ => None
       | Typed declared _ => Some declared
       end;
     now := 1700000000 * Second;
     DetectContentType := fun _ => "text/plain; charset=utf-8";
     Register := {[ "text/plain; charset=utf-8" := demoCodec ]};
     Logger := unit;
     NoopLogger := tt;
     GoContext := unit;
     Background := tt;
     Delivery := unit;
     conn_ConnectionOption := unit;
     channelPublish := fun _ => None |}.

Definition plainNote : @Value sniffEnv := Plain "hello".

(** Two loggers to tell apart, in an environment that is otherwise the demo
    one. *)
Definition loggingEnv : Env :=
  {| Value := demoValue;
     asContentTyper := fun v =>
       match v with
       | Plain _ => None
       | Typed declared _ => Some declared
       end;
     now := 1700000000 * Second;
     DetectContentType := fun _ => "text/plain; charset=utf-8";
     Register := {[ "application/json" := demoCodec ]};
     Logger := string;
     NoopLogger := "noop";
     GoContext := unit;
     Background := tt;
     Delivery := unit;
     conn_ConnectionOption := unit;
     channelPublish := fun _ => None |}.

Definition stderrLogger : @Logger loggingEnv := "stderr".

(** Two publish-before hooks of the demo environment: one marks the content
    type, one clears the body. *)
Definition markHook : @PublishingBefore demoEnv :=
  fun _ msg => set_ContentType (ContentType msg ++ "; hooked") msg.
Definition clearHook : @PublishingBefore demoEnv :=
  fun _ msg => set_Body [] msg.

(** * Properties *)

(** ** message.go *)

Section MessageFacts.
Context `{Env}.

(** The three branches of the content-type resolution, one equation each. *)
Lemma constructPublishing_typer v priority d ct :
  asContentTyper v = Some ct →
  constructPublishing v priority d =
    match Register !! ct with
    | None => MkW (stamped priority ct, Some CodecNotFound) [CallGet ct]
    | Some codec =>
        MkW (set_Body (Encode codec v).1 (stamped priority ct), (Encode codec v).2)
            [CallGet ct; CallEncode v]
    end.
Proof.
  intros Hct. unfold constructPublishing. rewrite Hct. cbn.
  destruct (Register !! ct) as [codec|]; cbn; [|reflexivity].
  destruct (Encode codec v) as [body err]; reflexivity.
Qed.

Lemma constructPublishing_default v priority d :
  asContentTyper v = None → d ≠ "" →
  constructPublishing v priority d =
    match Register !! d with
    | None => MkW (stamped priority d, Some CodecNotFound) [CallGet d]
    | Some codec =>
        MkW (set_Body (Encode codec v).1 (stamped priority d), (Encode codec v).2)
            [CallGet d; CallEncode v]
    end.
Proof.
  intros Hct Hd. unfold constructPublishing. rewrite Hct.
  destruct (decide (d ≠ "")) as [_|Hn]; [|contradiction]. cbn.
  destruct (Register !! d) as [codec|]; cbn; [|reflexivity].
  destruct (Encode codec v) as [body err]; reflexivity.
Qed.

Lemma constructPublishing_sniff v priority :
  asContentTyper v = None →
  constructPublishing v priority "" =
    let sniffed := DetectContentType [] in
    match Register !! "" with
    | None => MkW (stamped priority sniffed, Some CodecNotFound) [CallGet ""]
    | Some codec =>
        MkW (set_Body (Encode codec v).1 (stamped priority sniffed), (Encode codec v).2)
            [CallGet ""; CallEncode v]
    end.
Proof.
  intros Hct. unfold constructPublishing. rewrite Hct.
  destruct (decide ("" ≠ "")) as [Hn|_]; [congruence|]. cbn.
  destruct (Register !! "") as [codec|]; cbn; [|reflexivity].
  destruct (Encode codec v) as [body err]; reflexivity.
Qed.

(** Every run consults the registry exactly once, under one of the three
    keys above. *)
Lemma constructPublishing_cases v priority d :
  ∃ k shown,
    constructPublishing v priority d =
      match Register !! k with
      | None => MkW (stamped priority shown, Some CodecNotFound) [CallGet k]
      | Some codec =>
          MkW (set_Body (Encode codec v).1 (stamped priority shown), (Encode codec v).2)
              [CallGet k; CallEncode v]
      end.
Proof.
  destruct (asContentTyper v) as [ct|] eqn:Hct.
  - exists ct, ct. by apply constructPublishing_typer.
  - destruct (decide (d = "")) as [->|Hd].
    + exists "", (DetectContentType []). by apply constructPublishing_sniff.
    + exists d, d. by apply constructPublishing_default.
Qed.

(** C1, as amended. The string handed to the registry's [Get] is, in the
    [ContentTyper] branch, the type the value declares, verbatim (so it is
    non-empty exactly when the declared type is); in the configured-default
    branch it is the configured default, which is non-empty. *)
Theorem lookup_key_of_resolution v priority d :
  (∀ ct, asContentTyper v = Some ct →
         lookup_keys (log (constructPublishing v priority d)) = [ct]) ∧
  (asContentTyper v = None → d ≠ "" →
         lookup_keys (log (constructPublishing v priority d)) = [d] ∧
         Forall (λ k, k ≠ "") (lookup_keys (log (constructPublishing v priority d)))).
Proof.
  split.
  - intros ct Hct. rewrite (constructPublishing_typer _ _ _ _ Hct).
    by destruct (Register !! ct).
  - intros Hct Hd. rewrite (constructPublishing_default _ _ _ Hct Hd).
    destruct (Register !! d); cbn; (split; [reflexivity|]); by repeat constructor.
Qed.

(** In the sniffing branch the envelope shows the sniffed type, while the
    registry is asked for the empty string: line 42 assigns
    [msg.ContentType] only, and [contentType] keeps its zero value. *)
Lemma sniffing_looks_up_empty v priority :
  asContentTyper v = None →
  ContentType (val (constructPublishing v priority "")).1 = DetectContentType [] ∧
  lookup_keys (log (constructPublishing v priority "")) = [""].
Proof.
  intros Hct. rewrite (constructPublishing_sniff _ _ Hct). cbn.
  by destruct (Register !! "").
Qed.

(** C2, as amended. For a value that declares its content type, or one
    constructed under a non-empty configured default, the resolved content
    type is the declared type, else the default. When no codec is registered
    for it, [constructPublishing] returns the error [CodecNotFound], calls
    no encoder, and the message it returns beside the error has an empty
    body; that message is the envelope stamped so far, carrying the time of
    the call, the given priority and the resolved content type. *)
Theorem codec_miss v priority d resolved :
  asContentTyper v = Some resolved
  ∨ (asContentTyper v = None ∧ d ≠ "" ∧ resolved = d) →
  Register !! resolved = None →
  let r := constructPublishing v priority d in
  (val r).2 = Some CodecNotFound ∧
  Body (val r).1 = [] ∧
  log r = [CallGet resolved] ∧
  Timestamp (val r).1 = now ∧
  Priority (val r).1 = priority ∧
  ContentType (val r).1 = resolved.
Proof.
  intros Hres Hmiss r. subst r.
  destruct Hres as [Hct|(Hct & Hd & ->)].
  - rewrite (constructPublishing_typer _ _ _ _ Hct), Hmiss. done.
  - rewrite (constructPublishing_default _ _ _ Hct Hd), Hmiss. done.
Qed.

(** C6. A value that declares its own content type gets that type, verbatim,
    both in the envelope's [ContentType] and as the key of the codec lookup,
    whatever default is configured. *)
Theorem content_typer_wins v priority d ct :
  asContentTyper v = Some ct →
  ContentType (val (constructPublishing v priority d)).1 = ct ∧
  lookup_keys (log (constructPublishing v priority d)) = [ct].
Proof.
  intros Hct. rewrite (constructPublishing_typer _ _ _ _ Hct).
  by destruct (Register !! ct).
Qed.

End MessageFacts.

(** ** options.go *)

Section OptionsFacts.
Context `{Env}.

(** The two hook options touch nothing but their own chain. *)
Lemma PublishBefore_frame before opts :
  handlersAmount (PublishBefore before opts) = handlersAmount opts ∧
  minPriority (msgOpts (PublishBefore before opts)) = minPriority (msgOpts opts) ∧
  maxPriority (msgOpts (PublishBefore before opts)) = maxPriority (msgOpts opts).
Proof.
  unfold PublishBefore. revert opts.
  induction before as [|b before IH]; intros opts; cbn [fold_left]; [done|].
  destruct (IH (in_msgOpts (λ m, setm_pubBefore (pubBefore m ++ [b]) m) opts))
    as (-> & -> & ->).
  done.
Qed.

Lemma DeliverBefore_frame before opts :
  handlersAmount (DeliverBefore before opts) = handlersAmount opts ∧
  minPriority (msgOpts (DeliverBefore before opts)) = minPriority (msgOpts opts) ∧
  maxPriority (msgOpts (DeliverBefore before opts)) = maxPriority (msgOpts opts).
Proof.
  unfold DeliverBefore. revert opts.
  induction before as [|b before IH]; intros opts; cbn [fold_left]; [done|].
  destruct (IH (in_msgOpts (λ m, setm_deliveryBefore (deliveryBefore m ++ [b]) m) opts))
    as (-> & -> & ->).
  done.
Qed.

(** A property that the defaults have and every admitted option function
    keeps holds of whatever the options end up as. *)
Lemma applyOptions_invariant (Inv : options → Prop) (Allowed : Option → Prop) :
  (∀ f opts, Allowed f → Inv opts → Inv (f opts)) →
  ∀ fs opts, Forall Allowed fs → Inv opts → Inv (applyOptions fs opts).
Proof.
  intros Hstep fs. unfold applyOptions.
  induction fs as [|f fs IH]; intros opts Hfs Hinv; cbn [fold_left]; [done|].
  inversion Hfs; subst. apply IH; [done|]. by apply Hstep.
Qed.

(** One step for the pool size: only [HandlersAmount] writes the field, and
    only when its argument is positive. *)
Lemma option_keeps_handlers okPriority f opts :
  IsOptionWhere okPriority f → 1 ≤ handlersAmount opts → 1 ≤ handlersAmount (f opts).
Proof.
  intros Hf Hinv. destruct Hf; try exact Hinv.
  - unfold WaitConnection. by case_decide.
  - by rewrite (proj1 (PublishBefore_frame _ _)).
  - by rewrite (proj1 (DeliverBefore_frame _ _)).
  - unfold HandlersAmount. case_decide; cbn; [lia|done].
Qed.

(** One step for the priority range: only [AllowedPriority] writes the two
    bounds, and it stores its arguments as they are. *)
Lemma option_keeps_range f opts :
  IsOptionWhere (λ from to, from ≤ to) f →
  minPriority (msgOpts opts) ≤ maxPriority (msgOpts opts) →
  minPriority (msgOpts (f opts)) ≤ maxPriority (msgOpts (f opts)).
Proof.
  intros Hf Hinv. destruct Hf; try exact Hinv.
  - unfold WaitConnection. by case_decide.
  - done.
  - destruct (PublishBefore_frame before opts) as (_ & -> & ->). done.
  - destruct (DeliverBefore_frame before opts) as (_ & -> & ->). done.
  - unfold HandlersAmount. by case_decide.
Qed.

(** C7, as amended. If every [AllowedPriority from to] in the sequence of
    option functions has [from ≤ to], the options reached from the defaults
    have [minPriority ≤ maxPriority]. *)
Theorem priority_range_ordered fs :
  Forall (IsOptionWhere (λ from to, from ≤ to)) fs →
  minPriority (msgOpts (applyOptions fs defaultOptions))
    ≤ maxPriority (msgOpts (applyOptions fs defaultOptions)).
Proof.
  intros Hfs.
  apply (applyOptions_invariant
           (λ opts, minPriority (msgOpts opts) ≤ maxPriority (msgOpts opts))
           (IsOptionWhere (λ from to, from ≤ to))); [|done|].
  - intros f opts. apply option_keeps_range.
  - cbn. unfold MinMessagePriority, MaxMessagePriority. lia.
Qed.

(** C8. Whatever option functions are applied to the defaults, with whatever
    arguments, the handler pool size is at least 1. *)
Theorem handlers_amount_positive fs :
  Forall IsOption fs →
  1 ≤ handlersAmount (applyOptions fs defaultOptions).
Proof.
  intros Hfs.
  apply (applyOptions_invariant (λ opts, 1 ≤ handlersAmount opts) IsOption); [|done|].
  - intros f opts. apply option_keeps_handlers.
  - cbn. unfold defaultHandlerAmount. lia.
Qed.

(** C9. With no option function supplied the options are the defaults:
    content type application/json, a wait timeout of five seconds, an event
    buffer of 1, one handler, priorities from 0 to 9, an id builder that
    returns the empty string, and the no-op logger at all four levels. *)
Theorem default_options_values :
  applyOptions [] defaultOptions = defaultOptions ∧
  let opts := defaultOptions in
  defaultContentType (msgOpts opts) = "application/json" ∧
  wait_timeout opts = 5 * Second ∧
  wait_timeout opts = 5000000000 ∧
  subEventChanBuffer opts = 1 ∧
  handlersAmount opts = 1 ∧
  minPriority (msgOpts opts) = 0 ∧
  maxPriority (msgOpts opts) = 9 ∧
  (∀ u, idBuilder (msgOpts opts) u = "") ∧
  log_debug opts = NoopLogger ∧
  log_info opts = NoopLogger ∧
  log_warn opts = NoopLogger ∧
  log_error opts = NoopLogger.
Proof. split; [reflexivity|]. cbn. repeat split. Qed.

(** C10. [WaitConnection should 0] stores [should] in the wait flag and
    leaves the wait timeout as it was, so that on the defaults the five
    seconds survive; a non-zero timeout argument is stored, and the timeout
    changes only when the argument is non-zero. *)
Theorem wait_connection_timeout opts should :
  wait_flag (WaitConnection should 0 opts) = should ∧
  wait_timeout (WaitConnection should 0 opts) = wait_timeout opts ∧
  wait_timeout (WaitConnection should 0 defaultOptions) = 5 * Second ∧
  (∀ timeout, timeout ≠ 0 →
     wait_flag (WaitConnection should timeout opts) = should ∧
     wait_timeout (WaitConnection should timeout opts) = timeout) ∧
  (∀ timeout,
     wait_timeout (WaitConnection should timeout opts) ≠ wait_timeout opts →
     timeout ≠ 0).
Proof.
  split; [reflexivity|]. split; [reflexivity|]. split; [reflexivity|]. split.
  - intros timeout Hne. unfold WaitConnection. by case_decide.
  - intros timeout Hchg ->. by apply Hchg.
Qed.

(** The priority gate of the publish path as the specification describes
    it, in terms of the key that is looked up: a priority inside the allowed
    range, with a codec registered under the content type that
    [constructPublishing] asks the registry for, takes the value through the
    encoder
    (the registry is asked, then that codec encodes the value; an encoder
    error is the result of publish, otherwise the encoded message goes
    through the hooks to the transport); a priority outside the range fails
    with no call made at all, neither lookup, nor encode, nor transport. *)
Theorem publish_priority_gate opts ctx v priority :
  let m := msgOpts opts in
  (minPriority m ≤ priority ≤ maxPriority m →
   (∀ k, k ∈ lookup_keys (log (constructPublishing v priority (defaultContentType m))) →
         is_Some (Register !! k)) →
   ∃ k codec,
     Register !! k = Some codec ∧
     match (Encode codec v).2 with
     | Some e =>
         publish opts ctx v priority = MkW (Some e) [CallGet k; CallEncode v]
     | None =>
         ∃ msg,
           Body msg = (Encode codec v).1 ∧ Priority msg = priority ∧
           let sent := fold_left (λ msg before, before ctx msg) (pubBefore m) msg in
           publish opts ctx v priority =
             MkW (channelPublish sent) [CallGet k; CallEncode v; CallPublish sent]
     end) ∧
  (¬ (minPriority m ≤ priority ≤ maxPriority m) →
   publish opts ctx v priority = MkW (Some PriorityOutOfRange) []).
Proof.
  intros m. split.
  - intros Hin Hreg. unfold publish. fold m.
    destruct (decide (minPriority m ≤ priority ≤ maxPriority m)) as [_|Hn]; [|contradiction].
    destruct (constructPublishing_cases v priority (defaultContentType m))
      as (k & shown & E).
    rewrite E in Hreg |- *.
    destruct (Register !! k) as [codec|] eqn:Hk.
    + exists k, codec. split; [done|].
      destruct (Encode codec v) as [body [e|]]; cbn; [done|].
      by exists (set_Body body (stamped priority shown)).
    + destruct (Hreg k) as [c Hc]; [cbn; by apply list_elem_of_singleton|].
      congruence.
  - intros Hout. unfold publish. fold m.
    destruct (decide (minPriority m ≤ priority ≤ maxPriority m)); [contradiction|done].
Qed.

End OptionsFacts.

(** ** conn/dialers.go *)

Module ConnFacts.
Import Conn.

Section DialersFacts.
Context `{ConnEnv}.

(** The guard of line 63 changes the variable, not what the table holds: a
    table of length zero has no entry to lose. *)
Lemma empty_guard_lookup prop k :
  Table_get k (if decide (Table_len prop = 0%nat) then MkTable ∅ else prop)
  = Table_get k prop.
Proof.
  case_decide as Hlen; [|done].
  destruct prop as [|m]; cbn in *; [done|].
  apply map_size_empty_inv in Hlen. subst m. done.
Qed.

Lemma empty_guard_not_nil prop :
  ∃ m, (if decide (Table_len prop = 0%nat) then MkTable ∅ else prop) = MkTable m.
Proof.
  case_decide as Hlen; [by eexists|].
  destruct prop as [|m]; [done|by eexists].
Qed.

(** One [if _, ok := prop[k]; !ok { prop[k] = v }] on a table that is not
    nil: it does not panic, [k] is present afterwards, and whatever was
    present before is present with the same value. *)
Lemma fill_default k v m :
  ∃ m',
    match Table_get k (MkTable m) with
    | None => Table_set k v (MkTable m)
    | Some _ => Some (MkTable m)
    end = Some (MkTable m') ∧
    is_Some (m' !! k) ∧
    (∀ j x, m !! j = Some x → m' !! j = Some x) ∧
    (∀ j, j ≠ k → m' !! j = m !! j).
Proof.
  cbn. destruct (m !! k) as [x|] eqn:Hk.
  - exists m. by rewrite Hk.
  - exists (<[k := v]> m). split; [done|]. split; [|split].
    + rewrite lookup_insert_eq. by eexists.
    + intros j x Hj. rewrite lookup_insert_ne; [done|congruence].
    + intros j Hj. by rewrite lookup_insert_ne.
Qed.

(** [setupDefaultConfigProperties] never panics; its result is a table that
    holds the four keys it knows, keeps every entry of its argument, and
    holds nothing else that the argument did not hold. *)
Lemma setupDefaultConfigProperties_spec prop :
  ∃ m',
    setupDefaultConfigProperties prop = Some (MkTable m') ∧
    (is_Some (m' !! "product") ∧ is_Some (m' !! "version") ∧
     is_Some (m' !! "platform") ∧ is_Some (m' !! "information")) ∧
    (∀ j x, Table_get j prop = Some x → m' !! j = Some x) ∧
    (∀ j, j ≠ "product" → j ≠ "version" → j ≠ "platform" → j ≠ "information" →
          m' !! j = Table_get j prop).
Proof.
  unfold setupDefaultConfigProperties.
  destruct (empty_guard_not_nil prop) as [m0 E0].
  pose proof (empty_guard_lookup prop) as L0. rewrite E0 in L0 |- *. cbn in L0.
  destruct (fill_default "product" (FString defaultProduct) m0)
    as (m1 & -> & P1 & K1 & O1). cbn [mbind option_bind].
  destruct (fill_default "version" (FString defaultVersion) m1)
    as (m2 & -> & P2 & K2 & O2). cbn [mbind option_bind].
  destruct (fill_default "platform" (FString defaultPlatform) m2)
    as (m3 & -> & P3 & K3 & O3). cbn [mbind option_bind].
  destruct (fill_default "information" (FString defaultInformation) m3)
    as (m4 & -> & P4 & K4 & O4). cbn [mbind option_bind].
  exists m4. split; [done|]. split; [|split].
  - destruct P1 as [x1 P1], P2 as [x2 P2], P3 as [x3 P3].
    repeat split; [exists x1|exists x2|exists x3|exact P4]; eauto.
  - intros j x Hj. rewrite <- L0 in Hj. eauto.
  - intros j N1 N2 N3 N4. rewrite <- L0.
    rewrite O4, O3, O2, O1; done.
Qed.

(** C4. The error that [DialWithDialer], [Dial], [DialTLS], [DialConfig] and
    [Open] return is nil for every dialer, address, configuration and option
    list, whatever the library's dial functions answer; [DialConfig] gets
    there without a panic. *)
Theorem dial_returns_nil_error
    (dialer : Dialer) (url : string) (amqps : TLSConfig) (conn : ReadWriteCloser)
    (config : Config) (opts : list ConnectionOption) :
  (DialWithDialer dialer opts).2 = None ∧
  (Dial url opts).2 = None ∧
  (DialTLS url amqps opts).2 = None ∧
  (∃ c, DialConfig url config opts = Some (c, None)) ∧
  (Open conn config opts).2 = None.
Proof.
  repeat split.
  unfold DialConfig, DialConfig_config.
  destruct (setupDefaultConfigProperties_spec (Properties config)) as (m' & -> & _).
  cbn. by eexists.
Qed.

(** C5, as amended. The configuration [DialConfig] hands to the library has
    a properties table with entries for product, version, platform and
    information; every entry the caller supplied, under these or any other
    key, is there unchanged; and locale is there only if the caller
    supplied it. *)
Theorem dial_config_properties
    (url : string) (config : Config) (opts : list ConnectionOption) :
  ∃ config',
    DialConfig_config config = Some config' ∧
    DialConfig url config opts =
      Some (DialWithDialer (λ _, amqp_DialConfig url config') opts) ∧
    (∀ k, k ∈ ["product"; "version"; "platform"; "information"] →
          is_Some (Table_get k (Properties config'))) ∧
    (∀ k x, Table_get k (Properties config) = Some x →
            Table_get k (Properties config') = Some x) ∧
    Table_get "locale" (Properties config') = Table_get "locale" (Properties config).
Proof.
  unfold DialConfig, DialConfig_config.
  destruct (setupDefaultConfigProperties_spec (Properties config))
    as (m' & -> & (P1 & P2 & P3 & P4) & Keep & Others).
  cbn [mbind option_bind]. eexists. split; [reflexivity|]. split; [reflexivity|].
  cbn. split; [|split].
  - intros k Hk. repeat (apply elem_of_cons in Hk as [->|Hk]; [done|]).
    by apply elem_of_nil in Hk.
  - exact Keep.
  - by apply Others.
Qed.

End DialersFacts.

End ConnFacts.

(** ** The properties on concrete inputs *)

Section Examples.
#[local] Existing Instance demoEnv.

(** C1 fails as stated: a value whose [ContentType] method returns the empty
    string sends the empty string to the registry, default or no default. *)
Lemma declared_empty_type_is_looked_up :
  ¬ Forall (λ k : string, k ≠ "")
      (lookup_keys (log (constructPublishing untypedDeclaration 0 "application/json"))).
Proof.
  intros Hall. apply Forall_cons in Hall as [Hne _]. by apply Hne.
Qed.

Lemma lookup_key_of_resolution_witness :
  (asContentTyper csvRow = Some "text/csv" ∧
   lookup_keys (log (constructPublishing csvRow 0 "application/json"))
     = ["text/csv"]) ∧
  (asContentTyper jsonText = None ∧ "application/json" ≠ "" ∧
   lookup_keys (log (constructPublishing jsonText 0 "application/json"))
     = ["application/json"]).
Proof.
  split.
  - split; [reflexivity|].
    apply (proj1 (lookup_key_of_resolution csvRow 0 "application/json")).
    reflexivity.
  - split; [reflexivity|]. split; [discriminate|].
    apply (proj2 (lookup_key_of_resolution jsonText 0 "application/json"));
      [reflexivity|discriminate].
Defined.

(** The sniffing branch on a value with no declared type and no configured
    default: the envelope shows the sniffed type, and the registry is asked
    for the empty string. *)
Example sniffing_on_plain_text :
  constructPublishing jsonText 0 "" =
    MkW (stamped 0 "text/plain; charset=utf-8", Some CodecNotFound) [CallGet ""].
Proof. reflexivity. Qed.

(** C2 fails as stated: under the default text/xml, for which no codec is
    registered, the error is [CodecNotFound] and the body is empty, but the
    message returned beside the error is not the zero message. *)
Lemma codec_miss_returns_stamped_message :
  ¬ (asContentTyper xmlText = None →
     Register !! "text/xml" = None →
     let r := constructPublishing xmlText 3 "text/xml" in
     (val r).2 = Some CodecNotFound ∧ Body (val r).1 = [] ∧ (val r).1 = zeroPublishing).
Proof.
  intros Hclaim.
  destruct Hclaim as (_ & _ & Hzero); [reflexivity|reflexivity|].
  discriminate Hzero.
Qed.

Lemma codec_miss_witness :
  (asContentTyper xmlText = None ∧ "text/xml" ≠ "" ∧
   Register !! "text/xml" = None ∧
   (val (constructPublishing xmlText 3 "text/xml")).2 = Some CodecNotFound ∧
   log (constructPublishing xmlText 3 "text/xml") = [CallGet "text/xml"] ∧
   ContentType (val (constructPublishing xmlText 3 "text/xml")).1 = "text/xml") ∧
  (asContentTyper csvRow = Some "text/csv" ∧
   Register !! "text/csv" = None ∧
   (val (constructPublishing csvRow 3 "application/json")).2 = Some CodecNotFound ∧
   log (constructPublishing csvRow 3 "application/json") = [CallGet "text/csv"] ∧
   ContentType (val (constructPublishing csvRow 3 "application/json")).1 = "text/csv").
Proof.
  split.
  - assert (Hct : asContentTyper xmlText = None) by reflexivity.
    assert (Hd : "text/xml" ≠ "") by discriminate.
    assert (Hmiss : Register !! "text/xml" = None) by reflexivity.
    destruct (codec_miss xmlText 3 "text/xml" "text/xml"
                (or_intror (conj Hct (conj Hd eq_refl))) Hmiss)
      as (Herr & _ & Hlog & _ & _ & Hshown).
    split; [exact Hct|]. split; [exact Hd|]. split; [exact Hmiss|].
    split; [exact Herr|]. split; [exact Hlog|exact Hshown].
  - assert (Hct : asContentTyper csvRow = Some "text/csv") by reflexivity.
    assert (Hmiss : Register !! "text/csv" = None) by reflexivity.
    destruct (codec_miss csvRow 3 "application/json" "text/csv" (or_introl Hct) Hmiss)
      as (Herr & _ & Hlog & _ & _ & Hshown).
    split; [exact Hct|]. split; [exact Hmiss|].
    split; [exact Herr|]. split; [exact Hlog|exact Hshown].
Defined.

Lemma content_typer_wins_witness :
  asContentTyper csvRow = Some "text/csv" ∧
  ContentType (val (constructPublishing csvRow 7 "application/json")).1
    = "text/csv" ∧
  lookup_keys (log (constructPublishing csvRow 7 "application/json"))
    = ["text/csv"].
Proof.
  split; [reflexivity|].
  apply (content_typer_wins csvRow 7 "application/json" "text/csv").
  reflexivity.
Defined.

Lemma publish_priority_gate_witness :
  (0 ≤ 3 ≤ 9 ∧
   CallEncode jsonText ∈ log (publish defaultOptions Background jsonText 3)) ∧
  (¬ (0 ≤ 10 ≤ 9) ∧
   publish defaultOptions Background jsonText 10 = MkW (Some PriorityOutOfRange) []).
Proof.
  destruct (publish_priority_gate defaultOptions Background jsonText 3) as [Hin _].
  destruct (publish_priority_gate defaultOptions Background jsonText 10) as [_ Hout].
  split; split.
  - cbn. lia.
  - destruct Hin as (k & codec & _ & Hrun).
    + cbn. unfold MinMessagePriority, MaxMessagePriority. lia.
    + intros k Hk. cbn in Hk. apply list_elem_of_singleton in Hk. subst k.
      exists demoCodec. reflexivity.
    + destruct ((Encode codec jsonText).2) as [e|].
      * rewrite Hrun. cbn. apply elem_of_cons. right. apply list_elem_of_singleton.
        reflexivity.
      * destruct Hrun as (msg & _ & _ & Hrun). rewrite Hrun. cbn.
        apply elem_of_cons. right. apply elem_of_cons. left. reflexivity.
  - lia.
  - apply Hout. cbn. unfold MinMessagePriority, MaxMessagePriority. lia.
Defined.

(** C7 fails as stated: [AllowedPriority 5 2] is an option function like any
    other, and after it the lower bound is above the upper one. *)
Lemma allowed_priority_can_invert_range :
  ¬ (Forall IsOption [AllowedPriority 5 2] →
     minPriority (msgOpts (applyOptions [AllowedPriority 5 2] defaultOptions))
       ≤ maxPriority (msgOpts (applyOptions [AllowedPriority 5 2] defaultOptions))).
Proof.
  intros Hclaim.
  assert (Hopt : Forall IsOption [AllowedPriority 5 2]).
  { constructor; [|constructor]. by apply is_AllowedPriority. }
  specialize (Hclaim Hopt). cbn in Hclaim. lia.
Qed.

Lemma priority_range_ordered_witness :
  Forall (IsOptionWhere (λ from to, from ≤ to)) [AllowedPriority 2 5; HandlersAmount 0] ∧
  minPriority (msgOpts (applyOptions [AllowedPriority 2 5; HandlersAmount 0] defaultOptions))
    ≤ maxPriority (msgOpts (applyOptions [AllowedPriority 2 5; HandlersAmount 0] defaultOptions)).
Proof.
  assert (Hopt : Forall (IsOptionWhere (λ from to, from ≤ to))
                   [AllowedPriority 2 5; HandlersAmount 0]).
  { constructor; [apply is_AllowedPriority; lia|].
    constructor; [apply is_HandlersAmount|constructor]. }
  split; [exact Hopt|].
  exact (priority_range_ordered [AllowedPriority 2 5; HandlersAmount 0] Hopt).
Defined.

Lemma handlers_amount_positive_witness :
  Forall IsOption [HandlersAmount 0; HandlersAmount (-3); AllowedPriority 5 2] ∧
  1 ≤ handlersAmount
        (applyOptions [HandlersAmount 0; HandlersAmount (-3); AllowedPriority 5 2]
           defaultOptions).
Proof.
  assert (Hopt : Forall IsOption
                   [HandlersAmount 0; HandlersAmount (-3); AllowedPriority 5 2]).
  { constructor; [apply is_HandlersAmount|].
    constructor; [apply is_HandlersAmount|].
    constructor; [by apply is_AllowedPriority|constructor]. }
  split; [exact Hopt|].
  exact (handlers_amount_positive _ Hopt).
Defined.

Lemma wait_connection_timeout_witness :
  30 * Second ≠ 0 ∧
  wait_flag (WaitConnection true (30 * Second) defaultOptions) = true ∧
  wait_timeout (WaitConnection true (30 * Second) defaultOptions) = 30 * Second.
Proof.
  assert (Hne : 30 * Second ≠ 0) by discriminate.
  split; [exact Hne|].
  destruct (wait_connection_timeout defaultOptions true) as (_ & _ & _ & Hset & _).
  exact (Hset (30 * Second) Hne).
Defined.

End Examples.

Section ConnExamples.
Import Conn.
#[local] Existing Instance demoConnEnv.

(** C5 fails as stated: from the zero configuration the table that reaches
    the library has no locale entry. *)
Lemma no_default_locale_entry :
  ¬ (∃ config',
       DialConfig_config zeroConfig = Some config' ∧
       ∀ k, k ∈ ["product"; "version"; "platform"; "information"; "locale"] →
            is_Some (Table_get k (Properties config'))).
Proof.
  intros (config' & Hcfg & Hkeys).
  unfold DialConfig_config in Hcfg.
  destruct (ConnFacts.setupDefaultConfigProperties_spec (Properties zeroConfig))
    as (m' & E & _ & _ & Others).
  rewrite E in Hcfg. cbn in Hcfg. injection Hcfg as <-.
  destruct (Hkeys "locale") as [x Hx].
  - do 4 (apply elem_of_cons; right). apply elem_of_cons. by left.
  - cbn in Hx. rewrite Others in Hx; done.
Qed.

Lemma dial_config_properties_witness :
  Table_get "product" (Properties demoConfig) = Some (FString "billing") ∧
  ∃ config',
    DialConfig_config demoConfig = Some config' ∧
    Table_get "product" (Properties config') = Some (FString "billing") ∧
    is_Some (Table_get "version" (Properties config')).
Proof.
  assert (Hsupplied : Table_get "product" (Properties demoConfig)
                      = Some (FString "billing")) by reflexivity.
  split; [exact Hsupplied|].
  destruct (ConnFacts.dial_config_properties "amqp://localhost" demoConfig [])
    as (config' & Hcfg & _ & Hfour & Hkeep & _).
  exists config'. split; [exact Hcfg|]. split.
  - exact (Hkeep "product" (FString "billing") Hsupplied).
  - apply Hfour. apply elem_of_cons. right. apply elem_of_cons. left. reflexivity.
Defined.

End ConnExamples.

(** * Further properties of the embedded code *)

(** ** message.go: the whole of [constructPublishing] *)

Section MessageMore.
Context `{Env}.

(** X1. When a codec is registered under the content type that is looked
    up, the body and the error that [constructPublishing] returns are the
    ones [Encode] returned for the value, also when the encoder failed, and
    the encoder is called once, after the lookup. *)
Theorem construct_returns_what_encoder_returns v priority d k codec :
  k ∈ lookup_keys (log (constructPublishing v priority d)) →
  Register !! k = Some codec →
  let r := constructPublishing v priority d in
  Body (val r).1 = (Encode codec v).1 ∧
  (val r).2 = (Encode codec v).2 ∧
  log r = [CallGet k; CallEncode v].
Proof.
  intros Hk Hhit r. subst r.
  destruct (constructPublishing_cases v priority d) as (k' & shown & E).
  rewrite E in Hk |- *.
  assert (k' = k) as ->.
  { destruct (Register !! k'); cbn in Hk; apply list_elem_of_singleton in Hk; congruence. }
  rewrite Hhit. done.
Qed.

(** X2. Every run asks the registry exactly once and calls an encoder at
    most once: never before the lookup, never after a miss, always after a
    hit, and only on the value it was given. Whatever the outcome, the
    returned message carries the priority it was given and the time of the
    call. *)
Theorem construct_call_discipline v priority d :
  let r := constructPublishing v priority d in
  (∃ k,
     (Register !! k = None ∧ log r = [CallGet k] ∧ (val r).2 = Some CodecNotFound) ∨
     (is_Some (Register !! k) ∧ log r = [CallGet k; CallEncode v])) ∧
  Priority (val r).1 = priority ∧
  Timestamp (val r).1 = now.
Proof.
  intros r. subst r.
  destruct (constructPublishing_cases v priority d) as (k & shown & E).
  rewrite E. destruct (Register !! k) as [codec|] eqn:Hk.
  - split; [|done]. exists k. right. rewrite Hk. split; [by eexists|done].
  - split; [|done]. exists k. left. by rewrite Hk.
Qed.

(** X3. Whenever the value declares a content type or a non-empty default
    is configured, the content type shown in the envelope is the very
    string the codec was looked up under. *)
Theorem envelope_type_is_lookup_key v priority d :
  is_Some (asContentTyper v) ∨ d ≠ "" →
  lookup_keys (log (constructPublishing v priority d))
    = [ContentType (val (constructPublishing v priority d)).1].
Proof.
  intros Hres. destruct (asContentTyper v) as [ct|] eqn:Hct.
  - rewrite (constructPublishing_typer _ _ _ _ Hct). by destruct (Register !! ct).
  - destruct Hres as [[ct Hs]|Hd]; [discriminate|].
    rewrite (constructPublishing_default _ _ _ Hct Hd). by destruct (Register !! d).
Qed.

(** X4. With no declared type and an empty default, the envelope shows the
    type sniffed from the empty body, but the codec is the one registered
    under the empty string: if there is none, construction fails with
    [CodecNotFound], whatever is registered under the sniffed type; if there
    is one, it encodes the value. *)
Theorem sniffed_type_selects_no_codec v priority :
  asContentTyper v = None →
  let r := constructPublishing v priority "" in
  ContentType (val r).1 = DetectContentType [] ∧
  (Register !! "" = None → (val r).2 = Some CodecNotFound ∧ Body (val r).1 = []) ∧
  (∀ codec, Register !! "" = Some codec →
            Body (val r).1 = (Encode codec v).1 ∧ (val r).2 = (Encode codec v).2).
Proof.
  intros Hct r. subst r. rewrite (constructPublishing_sniff _ _ Hct). cbn.
  destruct (Register !! "") as [codec|]; cbn.
  - split; [done|]. split; [done|]. by intros ? [= <-].
  - done.
Qed.

(** X5. [constructPublishing] checks no priority: two runs that differ in
    the priority alone make the same calls, return the same error, and
    return messages that differ in the [Priority] field alone. *)
Theorem construct_ignores_priority v p1 p2 d :
  log (constructPublishing v p1 d) = log (constructPublishing v p2 d) ∧
  (val (constructPublishing v p1 d)).2 = (val (constructPublishing v p2 d)).2 ∧
  (val (constructPublishing v p2 d)).1
    = set_Priority p2 (val (constructPublishing v p1 d)).1.
Proof.
  unfold constructPublishing.
  destruct (asContentTyper v) as [ct|]; [|destruct (decide (d ≠ ""))]; cbn;
    match goal with |- context [Register !! ?k] => destruct (Register !! k) as [codec|] end;
    cbn; try done; by destruct (Encode codec v).
Qed.

End MessageMore.

(** ** options.go: how option functions act and compose *)

Section OptionsMore.
Context `{Env}.

(** Taking an options value apart field by field, to compare two of them. *)
Ltac by_fields opts :=
  let m := fresh "m" in
  destruct opts as [? ? ? ? ? ? ? ? ? ? m ? ? ? ? ?]; destruct m.

(** The loop of [PublishBefore] amounts to one append to the chain. *)
Lemma PublishBefore_eq before opts :
  PublishBefore before opts
  = set_msgOpts (setm_pubBefore (pubBefore (msgOpts opts) ++ before) (msgOpts opts)) opts.
Proof.
  unfold PublishBefore. revert opts.
  induction before as [|b before IH]; intros opts; cbn [fold_left].
  - rewrite app_nil_r. by_fields opts; reflexivity.
  - rewrite IH. by_fields opts. cbn. by rewrite <- app_assoc.
Qed.

Lemma DeliverBefore_eq before opts :
  DeliverBefore before opts
  = set_msgOpts
      (setm_deliveryBefore (deliveryBefore (msgOpts opts) ++ before) (msgOpts opts)) opts.
Proof.
  unfold DeliverBefore. revert opts.
  induction before as [|b before IH]; intros opts; cbn [fold_left].
  - rewrite app_nil_r. by_fields opts; reflexivity.
  - rewrite IH. by_fields opts. cbn. by rewrite <- app_assoc.
Qed.

(** X6. The wait timeout of a client is never zero: the default is five
    seconds, and [WaitConnection], the only option function that writes it,
    writes non-zero values only. *)
Theorem wait_timeout_never_zero fs :
  Forall IsOption fs →
  wait_timeout (applyOptions fs defaultOptions) ≠ 0.
Proof.
  intros Hfs.
  apply (applyOptions_invariant (λ opts, wait_timeout opts ≠ 0) IsOption); [|done|done].
  intros f opts Hf Hinv. destruct Hf; try exact Hinv.
  - unfold WaitConnection. by case_decide.
  - by rewrite PublishBefore_eq.
  - by rewrite DeliverBefore_eq.
  - unfold HandlersAmount. by case_decide.
Qed.

(** X7. The default content type of a client is empty only if
    [SetDefaultContentType] was given the empty string: with any other
    option functions it stays non-empty. *)
Theorem default_content_type_nonempty fs :
  Forall (λ f, IsOption f ∧ f ≠ SetDefaultContentType "") fs →
  defaultContentType (msgOpts (applyOptions fs defaultOptions)) ≠ "".
Proof.
  intros Hfs.
  apply (applyOptions_invariant (λ opts, defaultContentType (msgOpts opts) ≠ "")
           (λ f, IsOption f ∧ f ≠ SetDefaultContentType "")); [|done|done].
  intros f opts [Hf Hne] Hinv. destruct Hf; try exact Hinv.
  - unfold WaitConnection. by case_decide.
  - by rewrite PublishBefore_eq.
  - by rewrite DeliverBefore_eq.
  - unfold HandlersAmount. by case_decide.
  - cbn. intros ->. by apply Hne.
Qed.

(** X8. Every option function is idempotent, giving it twice in a row is
    giving it once, unless it is [PublishBefore] or [DeliverBefore] with at
    least one hook, which append. *)
Theorem option_idempotent f opts :
  IsOption f →
  (∀ before, before ≠ [] → f ≠ PublishBefore before) →
  (∀ before, before ≠ [] → f ≠ DeliverBefore before) →
  f (f opts) = f opts.
Proof.
  intros Hf Hpub Hdel.
  destruct Hf as [| | | | | | | | | | | |before|before| | | |]; try reflexivity.
  - unfold WaitConnection. case_decide; reflexivity.
  - destruct before as [|b before]; [reflexivity|].
    exfalso. by eapply (Hpub (b :: before)).
  - destruct before as [|b before]; [reflexivity|].
    exfalso. by eapply (Hdel (b :: before)).
  - unfold HandlersAmount. repeat case_decide; try reflexivity; contradiction.
Qed.

(** X9. The two guarded option functions, given twice: a zero timeout keeps
    the timeout of the earlier [WaitConnection] while the flag is replaced,
    and a non-positive amount keeps the amount of the earlier
    [HandlersAmount]. *)
Theorem guarded_options_compose opts :
  (∀ s1 t1 s2 t2,
     WaitConnection s2 t2 (WaitConnection s1 t1 opts)
     = WaitConnection s2 (if decide (t2 ≠ 0) then t2 else t1) opts) ∧
  (∀ n1 n2,
     HandlersAmount n2 (HandlersAmount n1 opts)
     = HandlersAmount (if decide (n2 > 0) then n2 else n1) opts).
Proof.
  split.
  - intros s1 t1 s2 t2. unfold WaitConnection.
    repeat case_decide; try reflexivity; congruence.
  - intros n1 n2. unfold HandlersAmount.
    repeat case_decide; try reflexivity; contradiction.
Qed.

(** The unguarded setters override: of two calls of the same option
    function in a row only the later one counts. *)
Lemma plain_options_override opts :
  (∀ a b c d, AllowedPriority c d (AllowedPriority a b opts) = AllowedPriority c d opts) ∧
  (∀ s t, SetDefaultContentType t (SetDefaultContentType s opts)
          = SetDefaultContentType t opts) ∧
  (∀ a b, EventChanBuffer b (EventChanBuffer a opts) = EventChanBuffer b opts) ∧
  (∀ a b, ApplicationId b (ApplicationId a opts) = ApplicationId b opts) ∧
  (∀ a b, UserId b (UserId a opts) = UserId b opts) ∧
  (∀ a b, SetMessageIdBuilder b (SetMessageIdBuilder a opts) = SetMessageIdBuilder b opts) ∧
  (∀ a b, Context_ b (Context_ a opts) = Context_ b opts) ∧
  (∀ a b, ProcessAllDeliveries b (ProcessAllDeliveries a opts)
          = ProcessAllDeliveries b opts) ∧
  (∀ a b, LazyDeclaring b (LazyDeclaring a opts) = LazyDeclaring b opts) ∧
  (∀ a b, AllLoggers b (AllLoggers a opts) = AllLoggers b opts).
Proof. repeat split. Qed.

(** X10. [PublishBefore] and [DeliverBefore] append their hooks to the end
    of the chain, in the order given, and change nothing else; two calls in
    a row are one call with the concatenated hooks, and a call with no hook
    changes nothing. *)
Theorem hook_options_append opts :
  (∀ before,
     pubBefore (msgOpts (PublishBefore before opts)) = (pubBefore (msgOpts opts) ++ before)%list ∧
     deliveryBefore (msgOpts (PublishBefore before opts)) = deliveryBefore (msgOpts opts)) ∧
  (∀ before,
     deliveryBefore (msgOpts (DeliverBefore before opts))
       = (deliveryBefore (msgOpts opts) ++ before)%list ∧
     pubBefore (msgOpts (DeliverBefore before opts)) = pubBefore (msgOpts opts)) ∧
  (∀ b1 b2, PublishBefore b2 (PublishBefore b1 opts) = PublishBefore (b1 ++ b2)%list opts) ∧
  (∀ b1 b2, DeliverBefore b2 (DeliverBefore b1 opts) = DeliverBefore (b1 ++ b2)%list opts) ∧
  PublishBefore [] opts = opts ∧
  DeliverBefore [] opts = opts.
Proof.
  split; [|split; [|split; [|split; [|split]]]].
  - intros before. by rewrite PublishBefore_eq.
  - intros before. by rewrite DeliverBefore_eq.
  - intros b1 b2. rewrite !PublishBefore_eq. cbn. by rewrite app_assoc.
  - intros b1 b2. rewrite !DeliverBefore_eq. cbn. by rewrite app_assoc.
  - rewrite PublishBefore_eq, app_nil_r. by_fields opts; reflexivity.
  - rewrite DeliverBefore_eq, app_nil_r. by_fields opts; reflexivity.
Qed.

(** X11. [AllLoggers] is, as its comment says, a shortcut for the four
    level options with the same logger, in whatever order they are given;
    afterwards all four levels hold that logger. *)
Theorem all_loggers_is_four_options lg opts :
  AllLoggers lg opts = WarnLogger lg (ErrorLogger lg (DebugLogger lg (InfoLogger lg opts))) ∧
  AllLoggers lg opts = InfoLogger lg (DebugLogger lg (WarnLogger lg (ErrorLogger lg opts))) ∧
  log_debug (AllLoggers lg opts) = lg ∧
  log_info (AllLoggers lg opts) = lg ∧
  log_warn (AllLoggers lg opts) = lg ∧
  log_error (AllLoggers lg opts) = lg.
Proof. repeat split. Qed.

(** X12. Where [AllowedPriority] and [HandlersAmount] stand among the other
    option functions does not matter: [AllowedPriority] commutes with every
    option function that is not an [AllowedPriority], and [HandlersAmount]
    with every option function that is not a [HandlersAmount] of a positive
    amount. *)
Theorem range_and_pool_options_commute f opts :
  IsOption f →
  (∀ from to, (∀ a b, f ≠ AllowedPriority a b) →
     AllowedPriority from to (f opts) = f (AllowedPriority from to opts)) ∧
  (∀ n, (∀ k, k > 0 → f ≠ HandlersAmount k) →
     HandlersAmount n (f opts) = f (HandlersAmount n opts)).
Proof.
  intros Hf. split.
  - intros from to Hne. destruct Hf; try reflexivity.
    + unfold WaitConnection. case_decide; reflexivity.
    + exfalso. by eapply Hne.
    + by rewrite !PublishBefore_eq.
    + by rewrite !DeliverBefore_eq.
    + unfold HandlersAmount. case_decide; reflexivity.
  - intros n Hne.
    destruct Hf as [| | | | | | | | | | | | | | |k| |];
      try (unfold HandlersAmount; case_decide; reflexivity).
    + unfold HandlersAmount, WaitConnection. repeat case_decide; reflexivity.
    + rewrite !PublishBefore_eq. unfold HandlersAmount. case_decide; reflexivity.
    + rewrite !DeliverBefore_eq. unfold HandlersAmount. case_decide; reflexivity.
    + destruct (decide (k > 0)) as [Hk|Hk].
      * exfalso. by eapply (Hne k Hk).
      * unfold HandlersAmount. repeat case_decide; try reflexivity; contradiction.
Qed.

End OptionsMore.

(** ** conn/dialers.go: the defaults as a table, and the connectors *)

Module ConnMore.
Import Conn.

Section DialersMore.
Context `{ConnEnv}.

(** After the guard of line 63 the variable refers to a map that holds what
    the argument held. *)
Lemma empty_guard_entries prop :
  (if decide (Table_len prop = 0%nat) then MkTable ∅ else prop)
  = MkTable (Table_entries prop).
Proof.
  case_decide as Hlen; destruct prop as [|m]; cbn in *; try done.
  apply map_size_empty_inv in Hlen. by subst m.
Qed.

(** One guarded assignment is a union with a one-entry table, the entries
    already there taking precedence. *)
Lemma fill_default_union k v m :
  match Table_get k (MkTable m) with
  | None => Table_set k v (MkTable m)
  | Some _ => Some (MkTable m)
  end = Some (MkTable (m ∪ {[ k := v ]})).
Proof.
  cbn. destruct (m !! k) as [x|] eqn:Hk.
  - by rewrite (union_singleton_r _ _ _ v Hk).
  - cbn. by rewrite insert_union_singleton_r.
Qed.

Lemma setup_as_four_unions prop :
  setupDefaultConfigProperties prop =
    Some (MkTable (Table_entries prop
                   ∪ {[ "product" := FString defaultProduct ]}
                   ∪ {[ "version" := FString defaultVersion ]}
                   ∪ {[ "platform" := FString defaultPlatform ]}
                   ∪ {[ "information" := FString defaultInformation ]})).
Proof.
  unfold setupDefaultConfigProperties. rewrite empty_guard_entries.
  rewrite fill_default_union. cbn [mbind option_bind].
  rewrite fill_default_union. cbn [mbind option_bind].
  rewrite fill_default_union. cbn [mbind option_bind].
  rewrite fill_default_union. reflexivity.
Qed.

(** [setupDefaultConfigProperties] is the union of the caller's table with
    the table of defaults, the caller's entries taking precedence. *)
Lemma setup_as_union prop :
  setupDefaultConfigProperties prop
  = Some (MkTable (Table_entries prop ∪ defaultProperties)).
Proof.
  rewrite setup_as_four_unions. do 2 f_equal.
  rewrite <- !(assoc_L (∪)). f_equal.
Qed.

Lemma size_union_singleton (m : gmap string Field) k v :
  (size m ≤ size (m ∪ {[ k := v ]}) ≤ S (size m))%nat.
Proof.
  destruct (m !! k) as [x|] eqn:Hk.
  - rewrite (union_singleton_r _ _ _ v Hk). lia.
  - rewrite <- insert_union_singleton_r by done.
    rewrite map_size_insert_None by done. lia.
Qed.

(** The keys of the table of defaults. *)
Lemma defaultProperties_keys j :
  is_Some (defaultProperties !! j)
  ↔ j ∈ ["product"; "version"; "platform"; "information"].
Proof.
  unfold defaultProperties. rewrite !elem_of_cons, elem_of_nil.
  rewrite !lookup_insert_is_Some, lookup_singleton_is_Some.
  destruct (decide ("product" = j)), (decide ("version" = j)),
    (decide ("platform" = j)); intuition congruence.
Qed.

(** X13. For each of the four keys the result of
    [setupDefaultConfigProperties] holds the caller's value when the caller
    supplied one, of whatever type, and the package's default string
    otherwise. *)
Theorem setup_values prop :
  ∃ t,
    setupDefaultConfigProperties prop = Some t ∧
    Table_get "product" t
      = Some (default (FString defaultProduct) (Table_get "product" prop)) ∧
    Table_get "version" t
      = Some (default (FString defaultVersion) (Table_get "version" prop)) ∧
    Table_get "platform" t
      = Some (default (FString defaultPlatform) (Table_get "platform" prop)) ∧
    Table_get "information" t
      = Some (default (FString defaultInformation) (Table_get "information" prop)).
Proof.
  eexists. split; [apply setup_as_union|].
  assert (Hget : ∀ k, Table_get k prop = Table_entries prop !! k)
    by (by destruct prop).
  cbn. rewrite !lookup_union, !Hget.
  repeat split;
    match goal with |- context [Table_entries prop !! ?k] =>
      by destruct (Table_entries prop !! k) end.
Qed.

(** X14. The result holds the caller's keys and the four default keys and
    no other key, so its length is the caller's plus at most four. *)
Theorem setup_keys prop :
  ∃ t,
    setupDefaultConfigProperties prop = Some t ∧
    (∀ j, is_Some (Table_get j t)
          ↔ is_Some (Table_get j prop)
            ∨ j ∈ ["product"; "version"; "platform"; "information"]) ∧
    (Table_len prop ≤ Table_len t ≤ Table_len prop + 4)%nat.
Proof.
  assert (Hget : ∀ k, Table_get k prop = Table_entries prop !! k)
    by (by destruct prop).
  assert (Hlen : Table_len prop = size (Table_entries prop))
    by (by destruct prop).
  eexists. split; [apply setup_as_union|]. split.
  - intros j. cbn. rewrite lookup_union_is_Some, Hget, defaultProperties_keys. done.
  - pose proof (setup_as_four_unions prop) as E4.
    rewrite setup_as_union in E4. injection E4 as ->. cbn. rewrite Hlen.
    set (m0 := Table_entries prop).
    set (m1 := m0 ∪ {[ "product" := FString defaultProduct ]}).
    set (m2 := m1 ∪ {[ "version" := FString defaultVersion ]}).
    set (m3 := m2 ∪ {[ "platform" := FString defaultPlatform ]}).
    pose proof (size_union_singleton m0 "product" (FString defaultProduct)) as S1.
    pose proof (size_union_singleton m1 "version" (FString defaultVersion)) as S2.
    pose proof (size_union_singleton m2 "platform" (FString defaultPlatform)) as S3.
    pose proof (size_union_singleton m3 "information" (FString defaultInformation)) as S4.
    fold m1 in S1. fold m2 in S2. fold m3 in S3. lia.
Qed.

(** X15. [setupDefaultConfigProperties] is idempotent: on a table it has
    returned it returns the same table. *)
Theorem setup_idempotent prop t :
  setupDefaultConfigProperties prop = Some t →
  setupDefaultConfigProperties t = Some t.
Proof.
  rewrite setup_as_union. intros [= <-]. rewrite setup_as_union. cbn.
  by rewrite <- (assoc_L (∪)), (idemp_L (∪)).
Qed.

(** X16. A table of length zero, be it the nil map or an empty map, comes
    back as a map of exactly the four defaults. *)
Theorem setup_of_empty prop :
  Table_len prop = 0%nat →
  setupDefaultConfigProperties prop = Some (MkTable defaultProperties) ∧
  (Table_len (MkTable defaultProperties) = 4)%nat.
Proof.
  intros Hlen. split; [|reflexivity].
  rewrite setup_as_union.
  assert (Table_entries prop = ∅) as ->.
  { destruct prop as [|m]; [done|]. by apply map_size_empty_inv. }
  by rewrite (left_id_L ∅ (∪)).
Qed.

(** X17. A caller who supplies all four keys gets the table back as it
    was: nothing is overwritten and nothing is added. *)
Theorem setup_keeps_complete_table prop :
  (∀ k, k ∈ ["product"; "version"; "platform"; "information"] →
        is_Some (Table_get k prop)) →
  setupDefaultConfigProperties prop = Some prop.
Proof.
  intros Hall. rewrite setup_as_union.
  destruct prop as [|m].
  - destruct (Hall "product") as [x Hx]; [apply elem_of_cons; by left|]. discriminate.
  - cbn. do 2 f_equal. apply map_eq. intros j.
    destruct (m !! j) as [x|] eqn:Hj.
    + by rewrite (lookup_union_l' _ _ _ (mk_is_Some _ _ Hj)).
    + rewrite lookup_union_r by done.
      destruct (defaultProperties !! j) as [d|] eqn:Hd; [|done].
      apply mk_is_Some, defaultProperties_keys, Hall in Hd.
      cbn in Hd. rewrite Hj in Hd. by destruct Hd.
Qed.

(** X18. [DialConfig] completes the properties and nothing else: virtual
    host, channel and frame limits, heartbeat and locale of the
    configuration reach the library as the caller set them; in particular
    no default heartbeat and no default locale is put in. *)
Theorem dial_config_keeps_other_fields config config' :
  DialConfig_config config = Some config' →
  Vhost config' = Vhost config ∧
  ChannelMax config' = ChannelMax config ∧
  FrameSize config' = FrameSize config ∧
  Heartbeat config' = Heartbeat config ∧
  Locale config' = Locale config.
Proof.
  unfold DialConfig_config. rewrite setup_as_union. cbn. by intros [= <-].
Qed.

(** X19. The three connectors never answer with an error either, and
    [ConfigConnector] does not panic; what [NewConnector] answers with is
    the connection [Connect] makes, and what [DefaultConnector] answers
    with is what [Dial] answers with. *)
Theorem connectors_return_nil_error
    (url : string) (config : Config) (opts : list ConnectionOption) :
  (DefaultConnector url opts ()).2 = None ∧
  DefaultConnector url opts () = Dial url opts ∧
  NewConnector url opts () = (Connect url opts, None) ∧
  (∃ c, ConfigConnector url config opts () = Some (c, None)) ∧
  ConfigConnector url config opts () = DialConfig url config opts.
Proof.
  repeat split.
  unfold ConfigConnector, DialConfig, DialConfig_config.
  rewrite setup_as_union. cbn. by eexists.
Qed.

End DialersMore.

End ConnMore.

(** ** The further properties on concrete inputs *)

Section MoreExamples.
#[local] Existing Instance demoEnv.

Lemma construct_returns_what_encoder_returns_witness :
  "application/json" ∈ lookup_keys (log (constructPublishing jsonText 3 "application/json")) ∧
  Register !! "application/json" = Some demoCodec ∧
  Body (val (constructPublishing jsonText 3 "application/json")).1
    = (Encode demoCodec jsonText).1 ∧
  (val (constructPublishing jsonText 3 "application/json")).2 = None ∧
  log (constructPublishing jsonText 3 "application/json")
    = [CallGet "application/json"; CallEncode jsonText].
Proof.
  assert (Hk : "application/json"
               ∈ lookup_keys (log (constructPublishing jsonText 3 "application/json"))).
  { cbn. apply elem_of_cons. left. reflexivity. }
  assert (Hhit : Register !! "application/json" = Some demoCodec) by reflexivity.
  split; [exact Hk|]. split; [exact Hhit|].
  exact (construct_returns_what_encoder_returns
           jsonText 3 "application/json" "application/json" demoCodec Hk Hhit).
Defined.

Lemma envelope_type_is_lookup_key_witness :
  (is_Some (asContentTyper csvRow) ∨ "" ≠ "") ∧
  lookup_keys (log (constructPublishing csvRow 0 ""))
    = [ContentType (val (constructPublishing csvRow 0 "")).1].
Proof.
  assert (Hres : is_Some (asContentTyper csvRow) ∨ "" ≠ "").
  { left. exists "text/csv". reflexivity. }
  split; [exact Hres|].
  exact (envelope_type_is_lookup_key csvRow 0 "" Hres).
Defined.

Lemma wait_timeout_never_zero_witness :
  Forall IsOption [WaitConnection true 0; WaitConnection false 0] ∧
  wait_timeout (applyOptions [WaitConnection true 0; WaitConnection false 0] defaultOptions)
    ≠ 0.
Proof.
  assert (Hopt : Forall IsOption [WaitConnection true 0; WaitConnection false 0]).
  { constructor; [apply is_WaitConnection|].
    constructor; [apply is_WaitConnection|constructor]. }
  split; [exact Hopt|].
  exact (wait_timeout_never_zero _ Hopt).
Defined.

Lemma default_content_type_nonempty_witness :
  Forall (λ f, IsOption f ∧ f ≠ SetDefaultContentType "")
    [SetDefaultContentType "text/csv"; AllowedPriority 5 2] ∧
  defaultContentType
    (msgOpts (applyOptions [SetDefaultContentType "text/csv"; AllowedPriority 5 2]
                defaultOptions)) ≠ "".
Proof.
  assert (Hopt : Forall (λ f, IsOption f ∧ f ≠ SetDefaultContentType "")
                   [SetDefaultContentType "text/csv"; AllowedPriority 5 2]).
  { constructor; [|constructor; [|constructor]].
    - split; [apply is_SetDefaultContentType|].
      intros E.
      apply (f_equal (λ f : Option, defaultContentType (msgOpts (f defaultOptions)))) in E.
      discriminate E.
    - split; [by apply is_AllowedPriority|].
      intros E.
      apply (f_equal (λ f : Option, minPriority (msgOpts (f defaultOptions)))) in E.
      discriminate E. }
  split; [exact Hopt|].
  exact (default_content_type_nonempty _ Hopt).
Defined.

Lemma option_idempotent_witness :
  (IsOption (HandlersAmount 0) ∧
   HandlersAmount 0 (HandlersAmount 0 defaultOptions) = HandlersAmount 0 defaultOptions) ∧
  (IsOption (AllowedPriority 2 5) ∧
   AllowedPriority 2 5 (AllowedPriority 2 5 defaultOptions)
     = AllowedPriority 2 5 defaultOptions).
Proof.
  split.
  - assert (Hopt : IsOption (HandlersAmount 0)) by apply is_HandlersAmount.
    split; [exact Hopt|].
    apply (option_idempotent (HandlersAmount 0) defaultOptions Hopt).
    + intros before Hne E.
      apply (f_equal (λ f : Option, pubBefore (msgOpts (f defaultOptions)))) in E.
      rewrite PublishBefore_eq in E. cbn in E. by apply Hne.
    + intros before Hne E.
      apply (f_equal (λ f : Option, deliveryBefore (msgOpts (f defaultOptions)))) in E.
      rewrite DeliverBefore_eq in E. cbn in E. by apply Hne.
  - assert (Hopt : IsOption (AllowedPriority 2 5)) by (by apply is_AllowedPriority).
    split; [exact Hopt|].
    apply (option_idempotent (AllowedPriority 2 5) defaultOptions Hopt).
    + intros before Hne E.
      apply (f_equal (λ f : Option, minPriority (msgOpts (f defaultOptions)))) in E.
      rewrite PublishBefore_eq in E. discriminate E.
    + intros before Hne E.
      apply (f_equal (λ f : Option, minPriority (msgOpts (f defaultOptions)))) in E.
      rewrite DeliverBefore_eq in E. discriminate E.
Defined.

Lemma range_and_pool_options_commute_witness :
  (IsOption (WaitConnection true 0) ∧
   AllowedPriority 2 5 (WaitConnection true 0 defaultOptions)
     = WaitConnection true 0 (AllowedPriority 2 5 defaultOptions)) ∧
  (IsOption (PublishBefore []) ∧
   HandlersAmount 4 (PublishBefore [] defaultOptions)
     = PublishBefore [] (HandlersAmount 4 defaultOptions)) ∧
  (IsOption (HandlersAmount 0) ∧
   HandlersAmount 4 (HandlersAmount 0 defaultOptions)
     = HandlersAmount 0 (HandlersAmount 4 defaultOptions)).
Proof.
  split; [|split].
  - assert (Hopt : IsOption (WaitConnection true 0)) by apply is_WaitConnection.
    split; [exact Hopt|].
    apply (proj1 (range_and_pool_options_commute (WaitConnection true 0)
                    defaultOptions Hopt)).
    intros a b E.
    apply (f_equal (λ f : Option, wait_flag (f defaultOptions))) in E.
    discriminate E.
  - assert (Hopt : IsOption (PublishBefore [])) by apply is_PublishBefore.
    split; [exact Hopt|].
    apply (proj2 (range_and_pool_options_commute (PublishBefore [])
                    defaultOptions Hopt)).
    intros k Hk E.
    apply (f_equal (λ f : Option,
             handlersAmount (f (set_handlersAmount (k + 1) defaultOptions)))) in E.
    unfold HandlersAmount in E. destruct (decide (k > 0)); [|contradiction].
    cbn in E. lia.
  - assert (Hopt : IsOption (HandlersAmount 0)) by apply is_HandlersAmount.
    split; [exact Hopt|].
    apply (proj2 (range_and_pool_options_commute (HandlersAmount 0)
                    defaultOptions Hopt)).
    intros k Hk E.
    apply (f_equal (λ f : Option,
             handlersAmount (f (set_handlersAmount (k + 1) defaultOptions)))) in E.
    unfold HandlersAmount in E.
    destruct (decide (0 > 0)) as [Hpos|_]; [lia|].
    destruct (decide (k > 0)); [|contradiction].
    cbn in E. lia.
Defined.

End MoreExamples.

Section SniffExample.

Lemma sniffed_type_selects_no_codec_witness :
  @asContentTyper sniffEnv plainNote = None ∧
  @Register sniffEnv !! "" = None ∧
  is_Some (@Register sniffEnv !! "text/plain; charset=utf-8") ∧
  ContentType (val (constructPublishing plainNote 0 "")).1 = "text/plain; charset=utf-8" ∧
  (val (constructPublishing plainNote 0 "")).2 = Some CodecNotFound.
Proof.
  assert (Hct : @asContentTyper sniffEnv plainNote = None) by reflexivity.
  assert (Hmiss : @Register sniffEnv !! "" = None) by reflexivity.
  destruct (@sniffed_type_selects_no_codec sniffEnv plainNote 0 Hct)
    as (Hshown & Hfail & _).
  split; [exact Hct|]. split; [exact Hmiss|].
  split; [exists demoCodec; reflexivity|].
  split; [exact Hshown|exact (proj1 (Hfail Hmiss))].
Defined.

(** C3 on the code. A client configured with an empty default content type
    publishes, at a priority inside the allowed range, a value that declares
    no content type. The resolved content type is the sniffed one, for which
    a codec is registered; the registry is nevertheless asked for the empty
    string (message.go:42 leaves [contentType] unassigned), so publish ends
    with [CodecNotFound] and the encoder is never called. *)
Lemma publish_in_range_misses_sniffed_codec :
  let opts := @applyOptions sniffEnv [SetDefaultContentType ""] defaultOptions in
  let d := defaultContentType (msgOpts opts) in
  minPriority (msgOpts opts) ≤ 3 ≤ maxPriority (msgOpts opts) ∧
  @asContentTyper sniffEnv plainNote = None ∧
  d = "" ∧
  ContentType (val (constructPublishing plainNote 3 d)).1
    = @DetectContentType sniffEnv [] ∧
  @Register sniffEnv !! @DetectContentType sniffEnv [] = Some demoCodec ∧
  publish opts Background plainNote 3 = MkW (Some CodecNotFound) [CallGet ""] ∧
  CallEncode plainNote ∉ log (publish opts Background plainNote 3).
Proof.
  cbn zeta. split; [cbn; unfold MinMessagePriority, MaxMessagePriority; lia|].
  split; [reflexivity|]. split; [reflexivity|]. split; [reflexivity|].
  split; [reflexivity|]. split; [reflexivity|].
  cbn. intros Hin. apply list_elem_of_singleton in Hin. discriminate Hin.
Qed.

End SniffExample.

Section ConnMoreExamples.
Import Conn.
#[local] Existing Instance demoConnEnv.

Lemma setup_idempotent_witness :
  setupDefaultConfigProperties (Properties demoConfig)
    = Some (MkTable (Table_entries (Properties demoConfig) ∪ defaultProperties)) ∧
  setupDefaultConfigProperties
      (MkTable (Table_entries (Properties demoConfig) ∪ defaultProperties))
    = Some (MkTable (Table_entries (Properties demoConfig) ∪ defaultProperties)).
Proof.
  assert (Hrun : setupDefaultConfigProperties (Properties demoConfig)
                 = Some (MkTable (Table_entries (Properties demoConfig) ∪ defaultProperties)))
    by (vm_compute; reflexivity).
  split; [exact Hrun|].
  exact (ConnMore.setup_idempotent _ _ Hrun).
Defined.

Lemma setup_of_empty_witness :
  Table_len NilTable = 0%nat ∧
  setupDefaultConfigProperties NilTable = Some (MkTable defaultProperties).
Proof.
  assert (Hlen : Table_len NilTable = 0%nat) by reflexivity.
  split; [exact Hlen|].
  exact (proj1 (ConnMore.setup_of_empty NilTable Hlen)).
Defined.

Lemma setup_keeps_complete_table_witness :
  let prop := MkTable {[ "product" := FString "billing"; "version" := FString "7";
                         "platform" := FString "linux"; "information" := FNil;
                         "tenant" := FInt 12 ]} in
  (∀ k, k ∈ ["product"; "version"; "platform"; "information"] →
        is_Some (Table_get k prop)) ∧
  setupDefaultConfigProperties prop = Some prop.
Proof.
  intros prop.
  assert (Hall : ∀ k, k ∈ ["product"; "version"; "platform"; "information"] →
                      is_Some (Table_get k prop)).
  { intros k Hk.
    repeat (apply elem_of_cons in Hk as [->|Hk]; [vm_compute; eexists; reflexivity|]).
    by apply elem_of_nil in Hk. }
  split; [exact Hall|].
  exact (ConnMore.setup_keeps_complete_table prop Hall).
Defined.

Lemma dial_config_keeps_other_fields_witness :
  DialConfig_config demoConfig
    = Some (set_Properties
              (MkTable (Table_entries (Properties demoConfig) ∪ defaultProperties))
              demoConfig) ∧
  Vhost (set_Properties
           (MkTable (Table_entries (Properties demoConfig) ∪ defaultProperties))
           demoConfig) = "/" ∧
  Locale (set_Properties
            (MkTable (Table_entries (Properties demoConfig) ∪ defaultProperties))
            demoConfig) = "".
Proof.
  assert (Hrun : DialConfig_config demoConfig
                 = Some (set_Properties
                           (MkTable (Table_entries (Properties demoConfig)
                                     ∪ defaultProperties))
                           demoConfig))
    by (vm_compute; reflexivity).
  split; [exact Hrun|].
  destruct (ConnMore.dial_config_keeps_other_fields _ _ Hrun) as (Hv & _ & _ & _ & Hl).
  split; [exact Hv|exact Hl].
Defined.

End ConnMoreExamples.
